(** * Marketplace backend: checkout and settlement

    A shallow embedding of the checkout / settlement core of [main.py]
    (FastAPI handlers over MongoDB collections and the Stripe client) and
    the properties its specification states about it.

    - Python [float] is IEEE binary64: the kernel's primitive floats.
    - Python [int] is unbounded: [Z].
    - A MongoDB collection is the list of its documents in natural
      (insertion) order; [find] filters it, [find_one] and [update_one]
      act on the first match.
    - A handler is a computation in a state-and-exception monad over the
      database and a trace of the driver calls it issued. *)

From Stdlib Require Import ZArith String Ascii List.
From Stdlib Require Import PrimFloat SpecFloat FloatOps.
From stdpp Require Import base decidable option list strings gmap.

Local Open Scope string_scope.
Local Open Scope Z_scope.

(** ** Python numbers *)

Module Py.

(** [float(n)] for an [int] [n], which is also the conversion [x * n]
    applies to its [int] operand: [round_int] rounds to nearest, ties to
    even, and an integer beyond the range of a double raises;
    [None] stands for that [OverflowError]. *)
Definition round_int (n : Z) : float :=
  SF2Prim (binary_normalize prec emax n 0 false).

Definition float_of_int (n : Z) : option float :=
  if is_infinity (round_int n) then None else Some (round_int n).

(** [int(x)] for a [float] [x]: truncation toward zero; [None] stands
    for [OverflowError] (infinity) and [ValueError] (NaN). *)
Definition int_of_float (x : float) : option Z :=
  match Prim2SF x with
  | S754_zero _ => Some 0
  | S754_finite s m e =>
      let a := match e with
               | Z0 => Z.pos m
               | Z.pos k => Z.pos m * 2 ^ Z.pos k
               | Z.neg k => Z.pos m / 2 ^ Z.pos k
               end in
      Some (if s then - a else a)
  | S754_infinity _ | S754_nan => None
  end.

(** [x or 1] on an optional [int] ([None] and [0] are falsy). *)
Definition or_1 (x : option Z) : Z :=
  match x with
  | Some q => if q =? 0 then 1 else q
  | None => 1
  end.

(** [not s] on a [str]. *)
Definition falsy (s : string) : bool := bool_decide (s = "").

End Py.

(** ** bson.ObjectId

    The ids the driver generates, and so the [_id] of every document, are
    twelve bytes; [str] prints them as 24 lower-case hex digits, and the
    model keeps that string. [ObjectId(s)] reads a string of 24
    characters with [bytes.fromhex]: two hex digits per byte, in either
    case, and ASCII whitespace skipped before a byte. On 24 hex digits
    that is the id of twelve bytes they denote; on a string with
    whitespace in it, an object of fewer bytes. *)

Definition is_lower_hex (c : ascii) : bool :=
  let n := N_of_ascii c in
  ((48 <=? n) && (n <=? 57) || (97 <=? n) && (n <=? 102))%N.

Definition lower_ascii (c : ascii) : ascii :=
  let n := N_of_ascii c in
  if ((65 <=? n) && (n <=? 90))%N then ascii_of_N (n + 32) else c.

Fixpoint lower (s : string) : string :=
  match s with
  | EmptyString => EmptyString
  | String c s' => String (lower_ascii c) (lower s')
  end.

Fixpoint all_lower_hex (s : string) : bool :=
  match s with
  | EmptyString => true
  | String c s' => is_lower_hex c && all_lower_hex s'
  end.

Definition is_oid_hex (s : string) : bool :=
  (String.length s =? 24)%nat && all_lower_hex s.

Record ObjectId := mkObjectId {
  oid_hex : string;
  oid_valid : Is_true (is_oid_hex oid_hex)
}.

(** [str(o)] *)
Definition str (o : ObjectId) : string := oid_hex o.

(** A hex digit, in either case. *)
Definition is_hex (c : ascii) : bool := is_lower_hex (lower_ascii c).

(** ASCII whitespace: space, [\t], [\n], [\v], [\f] and [\r]. *)
Definition is_space (c : ascii) : bool :=
  let n := N_of_ascii c in
  ((n =? 32) || (9 <=? n) && (n <=? 13))%N.

(** [bytes.fromhex(s)], as the lower-case hex digits of the bytes it
    returns; [None] stands for [ValueError]. Whitespace is skipped where a
    byte may start, not between the two digits of a byte. *)
Fixpoint fromhex (s : string) : option string :=
  match s with
  | EmptyString => Some EmptyString
  | String c s' =>
      if is_space c then fromhex s'
      else
        match s' with
        | String c' s'' =>
            if is_hex c && is_hex c'
            then String (lower_ascii c) <$> (String (lower_ascii c') <$> fromhex s'')
            else None
        | EmptyString => None
        end
  end.

(** What [ObjectId(s)] returns: an id of twelve bytes, or an object of
    fewer bytes, kept as their hex digits. *)
Inductive Parsed :=
| Whole (o : ObjectId)
| Short (hex : string).

(** [ObjectId(s)] for a [str] [s]; [None] stands for
    [bson.errors.InvalidId], raised when [s] has not 24 characters or
    [bytes.fromhex] refuses it. *)
Definition ObjectId_parse (s : string) : option Parsed :=
  if (String.length s =? 24)%nat then
    h ← fromhex s;
    Some (match decide (Is_true (is_oid_hex h)) with
          | left H => Whole (mkObjectId h H)
          | right _ => Short h
          end)
  else None.

(** The id of twelve bytes that [s] denotes: [ObjectId(s)] where it is
    one, which is on the strings of 24 hex digits. *)
Definition ObjectId_of_str (s : string) : option ObjectId :=
  match ObjectId_parse s with
  | Some (Whole o) => Some o
  | _ => None
  end.

Lemma ObjectId_eq (o1 o2 : ObjectId) : oid_hex o1 = oid_hex o2 -> o1 = o2.
Proof.
  destruct o1 as [h1 v1], o2 as [h2 v2]; simpl; intros ->.
  f_equal. apply proof_irrel.
Qed.

#[global] Instance ObjectId_eq_dec : EqDecision ObjectId.
Proof.
  intros o1 o2. destruct (decide (oid_hex o1 = oid_hex o2)) as [E | N].
  - left. by apply ObjectId_eq.
  - right. congruence.
Defined.

#[global] Instance Parsed_eq_dec : EqDecision Parsed.
Proof. solve_decision. Defined.

(** ** Documents *)

(** [ProductIn]: the fields a seller supplies; [Field(..., ge=0)] on
    [price] is the request validation of the framework. *)
Record ProductIn := mkProductIn {
  seller_id : string;
  title : string;
  description : option string;
  price : float;
  currency : string;
  category : option string;
  tags : list string;
  preview_media_url : option string;
  file_storage_key : option string
}.

(** [stats]: the two counters, as integers without a bound. *)
Record Stats := mkStats { views : Z; sales : Z }.

(** A document of the [product] collection: [create_product] stores the
    dump of a [ProductIn] with [status] and [stats] added, and
    [update_product] [$set]s the dump again, so every field is present and
    the defaults of the handlers' [d.get(k, default)] are never taken. *)
Record Product := mkProduct {
  prod_id : ObjectId;
  prod_in : ProductIn;
  prod_status : string;
  prod_stats : Stats
}.

Inductive PaymentStatus := pending | paid | refunded | failed.

#[global] Instance PaymentStatus_eq_dec : EqDecision PaymentStatus.
Proof. solve_decision. Defined.

(** A line of a purchase's [items]: the snapshot [create_checkout]
    stores. It has no quantity field. *)
Record PurchaseItem := mkPurchaseItem {
  item_product_id : string;
  item_title : string;
  item_price : float;
  item_seller_id : string
}.

(** A document of the [purchase] collection. [transaction_id] is absent
    until a handler sets it. *)
Record Purchase := mkPurchase {
  pur_id : ObjectId;
  buyer_email : string;
  items : list PurchaseItem;
  total_amount : float;
  pur_currency : string;
  pur_provider : string;
  payment_status : PaymentStatus;
  transaction_id : option string
}.

Record AuditLog := mkAuditLog {
  action : string;
  resource_type : string;
  resource_id : string;
  metadata : list (string * string)
}.

(** The collections the checkout and settlement handlers use. *)
Record DB := mkDB {
  product : list Product;
  purchase : list Purchase;
  auditlog : list AuditLog
}.

(** ** Handlers as computations *)

(** What a handler can raise: [HTTPException] is the framework's
    response with that status; the others are not caught by any handler
    and surface as a server error. *)
Inductive Exn :=
| HTTPException (status_code : Z) (detail : string)
| OverflowError
| ValueError
| StripeError (message : string).

Inductive Result (A : Type) :=
| Return (a : A)
| Raise (e : Exn).
Arguments Return {A} a.
Arguments Raise {A} e.

(** The driver calls a handler issued, oldest first. *)
Inductive DbCall :=
| Find (collection : string)
| FindOne (collection : string)
| UpdateOne (collection : string)
| DeleteOne (collection : string)
| InsertOne (collection : string).

Record World := mkWorld {
  db : DB;
  calls : list DbCall
}.

Definition M (A : Type) : Type := World -> Result A * World.

#[global] Instance M_ret : MRet M := fun A a w => (Return a, w).
#[global] Instance M_bind : MBind M := fun A B k m w =>
  match m w with
  | (Return a, w') => k a w'
  | (Raise e, w') => (Raise e, w')
  end.

Definition raise {A} (e : Exn) : M A := fun w => (Raise e, w).

(** A driver call: log it, read the database, write the new one. *)
Definition call {A} (c : DbCall) (f : DB -> A * DB) : M A := fun w =>
  let '(a, d) := f (db w) in
  (Return a, mkWorld d (calls w ++ [c])).

(** [for x in l: body x] *)
Fixpoint for_each {A} (l : list A) (body : A -> M unit) : M unit :=
  match l with
  | [] => mret tt
  | x :: l' => body x ≫= fun _ => for_each l' body
  end.

(** A [for] loop that updates local variables [s]. *)
Fixpoint for_fold {A S} (l : list A) (body : S -> A -> M S) (s : S) : M S :=
  match l with
  | [] => mret s
  | x :: l' => body s x ≫= for_fold l' body
  end.

Definition from_option {A} (e : Exn) (x : option A) : M A :=
  match x with
  | Some a => mret a
  | None => raise e
  end.

(** [[f x for x in l]], where [f] may raise. *)
Fixpoint for_list {A B} (l : list A) (f : A -> M B) : M (list B) :=
  match l with
  | [] => mret []
  | x :: l' => f x ≫= fun y => for_list l' f ≫= fun ys => mret (y :: ys)
  end.

(** [x * n] for a [float] [x] and an [int] [n]. *)
Definition mul_int (x : float) (n : Z) : M float :=
  from_option OverflowError (Py.float_of_int n) ≫= fun y => mret (x * y)%float.

(** [int(x)] for a [float] [x]. *)
Definition int (x : float) : M Z :=
  from_option (if PrimFloat.is_nan x then ValueError else OverflowError)
              (Py.int_of_float x).

(** [oid]: [ObjectId(id_str)], and 400 when that raises. *)
Definition oid (id_str : string) : M Parsed :=
  from_option (HTTPException 400 "Invalid id") (ObjectId_parse id_str).

(** ** The driver (pymongo) on the collections *)

(** Change the first element that satisfies [P]. *)
Fixpoint update_first {A} (P : A -> bool) (f : A -> A) (l : list A) : list A :=
  match l with
  | [] => []
  | x :: l' => if P x then f x :: l' else x :: update_first P f l'
  end.

(** Remove the first element that satisfies [P]. *)
Fixpoint remove_first {A} (P : A -> bool) (l : list A) : list A :=
  match l with
  | [] => []
  | x :: l' => if P x then l' else x :: remove_first P l'
  end.

Definition has_id (o : ObjectId) (d : Product) : bool :=
  bool_decide (prod_id d = o).

(** The filter [{"_id": k}] on a product. Every [_id] of the collection
    has twelve bytes, so an object of fewer bytes equals none of them. *)
Definition has_key (k : Parsed) : Product -> bool :=
  match k with
  | Whole o => has_id o
  | Short _ => fun _ => false
  end.

Definition matched {A} (P : A -> bool) (l : list A) : Z :=
  match List.find P l with Some _ => 1 | None => 0 end.

Definition set_product (d : DB) (ps : list Product) : DB :=
  mkDB ps (purchase d) (auditlog d).

Definition set_purchase (d : DB) (ps : list Purchase) : DB :=
  mkDB (product d) ps (auditlog d).

Definition inc_views (p : Product) : Product :=
  mkProduct (prod_id p) (prod_in p) (prod_status p)
            (mkStats (views (prod_stats p) + 1) (sales (prod_stats p))).

Definition inc_sales (p : Product) : Product :=
  mkProduct (prod_id p) (prod_in p) (prod_status p)
            (mkStats (views (prod_stats p)) (sales (prod_stats p) + 1)).

Definition set_fields (data : ProductIn) (p : Product) : Product :=
  mkProduct (prod_id p) data (prod_status p) (prod_stats p).

Module db_product.

(** [list(db.product.find({"_id": {"$in": ks}}))] *)
Definition find_in (ks : list Parsed) : M (list Product) :=
  call (Find "product") (fun d =>
    (filter (fun p => Whole (prod_id p) ∈ ks) (product d), d)).

(** [db.product.find_one({"_id": k})] *)
Definition find_one (k : Parsed) : M (option Product) :=
  call (FindOne "product") (fun d => (List.find (has_key k) (product d), d)).

(** [db.product.update_one({"_id": k}, {"$inc": {"stats.views": 1}})] *)
Definition update_one_inc_views (k : Parsed) : M unit :=
  call (UpdateOne "product") (fun d =>
    (tt, set_product d (update_first (has_key k) inc_views (product d)))).

(** [db.product.update_one({"_id": k}, {"$inc": {"stats.sales": 1}})] *)
Definition update_one_inc_sales (k : Parsed) : M unit :=
  call (UpdateOne "product") (fun d =>
    (tt, set_product d (update_first (has_key k) inc_sales (product d)))).

(** [db.product.update_one({"_id": k}, {"$set": data}).matched_count] *)
Definition update_one_set (k : Parsed) (data : ProductIn) : M Z :=
  call (UpdateOne "product") (fun d =>
    (matched (has_key k) (product d),
     set_product d (update_first (has_key k) (set_fields data) (product d)))).

(** [db.product.delete_one({"_id": k}).deleted_count] *)
Definition delete_one (k : Parsed) : M Z :=
  call (DeleteOne "product") (fun d =>
    (matched (has_key k) (product d),
     set_product d (remove_first (has_key k) (product d)))).

End db_product.

Definition set_transaction_id (t : string) (p : Purchase) : Purchase :=
  mkPurchase (pur_id p) (buyer_email p) (items p) (total_amount p)
             (pur_currency p) (pur_provider p) (payment_status p) (Some t).

Definition set_payment_status (s : PaymentStatus) (p : Purchase) : Purchase :=
  mkPurchase (pur_id p) (buyer_email p) (items p) (total_amount p)
             (pur_currency p) (pur_provider p) s (transaction_id p).

Module db_purchase.

Definition has_id (o : ObjectId) (p : Purchase) : bool :=
  bool_decide (pur_id p = o).

(** The filter [{"_id": k}] on a purchase. *)
Definition has_key (k : Parsed) : Purchase -> bool :=
  match k with
  | Whole o => has_id o
  | Short _ => fun _ => false
  end.

(** A query [{"transaction_id": t}] matches on equality; for [t = None]
    it matches the documents without the field. *)
Definition has_transaction_id (t : option string) (p : Purchase) : bool :=
  bool_decide (transaction_id p = t).

(** [db.purchase.find_one({"transaction_id": t})] *)
Definition find_one_by_transaction_id (t : option string) : M (option Purchase) :=
  call (FindOne "purchase") (fun d =>
    (List.find (has_transaction_id t) (purchase d), d)).

(** [db.purchase.update_one({"_id": k}, {"$set": ...})], the [$set] as
    the function it applies to the document. *)
Definition update_one_set (k : Parsed) (f : Purchase -> Purchase) : M unit :=
  call (UpdateOne "purchase") (fun d =>
    (tt, set_purchase d (update_first (has_key k) f (purchase d)))).

End db_purchase.

(** Modelled from the spec: [database.create_document] (module [database]
    is imported by [main.py]; its file is not among the sources). It
    persists the given document as a new record of the collection and
    returns the new record's identity as a string. The identity is the
    one the driver generates, here the argument [new_id]. *)
Definition create_document_purchase (new_id : ObjectId)
    (data : ObjectId -> Purchase) : M string :=
  call (InsertOne "purchase") (fun d =>
    (str new_id, set_purchase d (purchase d ++ [data new_id]))).

(** Modelled from the spec: [database.create_document], on the [product]
    collection. *)
Definition create_document_product (new_id : ObjectId)
    (data : ObjectId -> Product) : M string :=
  call (InsertOne "product") (fun d =>
    (str new_id, set_product d (product d ++ [data new_id]))).

(** Modelled from the spec: [database.create_document], on the [auditlog]
    collection. No handler uses the identity of an audit record (each
    call site drops the result), so the model keeps neither. *)
Definition create_document_auditlog (data : AuditLog) : M unit :=
  call (InsertOne "auditlog") (fun d =>
    (tt, mkDB (product d) (purchase d) (auditlog d ++ [data]))).

(** ** Requests, responses and the Stripe client *)

(** [CheckoutItem]: [quantity: int = 1], with no bound. *)
Record CheckoutItem := mkCheckoutItem {
  product_id : string;
  quantity : Z
}.

Record CheckoutRequest := mkCheckoutRequest {
  req_buyer_email : string;
  req_items : list CheckoutItem;
  req_provider : string
}.

(** An element of [line_items] as sent to the provider. *)
Record LineItem := mkLineItem {
  li_currency : string;
  li_name : string;
  li_pid : string;
  li_unit_amount : Z;
  li_quantity : Z
}.

(** The arguments of [stripe.checkout.Session.create] that vary;
    [mode] and [payment_method_types] are constants. *)
Record SessionParams := mkSessionParams {
  customer_email : string;
  line_items : list LineItem;
  success_url : string;
  cancel_url : string
}.

Record Session := mkSession {
  session_id : string;
  session_url : string
}.

(** A verified event: [event["type"]] and
    [event["data"]["object"].get("id")]. *)
Record Event := mkEvent {
  event_type : string;
  event_object_id : option string
}.

(** The [stripe] module as the handlers use it. Both calls are the
    provider's; [inl] carries the message of the exception raised. *)
Record Stripe := mkStripe {
  api_key : string;
  Session_create : SessionParams -> string + Session;
  construct_event : string -> option string -> string -> string + Event
}.

Inductive Response :=
| ProductOut (d : Product)
| Created (id : string)
| Updated
| Deleted
| StripeCheckout (session_id url : string)
| DemoCheckout (provider purchase_id : string)
| Received.

(** ** The handlers *)

Section Handlers.

(** [stripe] with [stripe.api_key] read from the environment, and the
    module-level [STRIPE_WEBHOOK_SECRET]. *)
Variable stripe : Stripe.
Variable STRIPE_WEBHOOK_SECRET : string.

(** [GET /api/products/{product_id}] *)
Definition get_product (product_id : string) : M Response :=
  o ← oid product_id;
  d ← db_product.find_one o;
  match d with
  | None => raise (HTTPException 404 "Product not found")
  | Some d =>
      db_product.update_one_inc_views (Whole (prod_id d));;
      mret (ProductOut d)
  end.

(** [POST /api/seller/products] *)
Definition create_product (product : ProductIn) (new_id : ObjectId) : M Response :=
  new_id ← create_document_product new_id (fun i =>
    mkProduct i product "active" (mkStats 0 0));
  create_document_auditlog
    (mkAuditLog "create_product" "product" new_id [("seller_id", seller_id product)]);;
  mret (Created new_id).

(** [PUT /api/seller/products/{product_id}] *)
Definition update_product (product_id : string) (product : ProductIn) : M Response :=
  o ← oid product_id;
  matched_count ← db_product.update_one_set o product;
  if matched_count =? 0 then raise (HTTPException 404 "Product not found")
  else
    create_document_auditlog (mkAuditLog "update_product" "product" product_id []);;
    mret Updated.

(** [DELETE /api/seller/products/{product_id}] *)
Definition delete_product (product_id : string) : M Response :=
  o ← oid product_id;
  deleted_count ← db_product.delete_one o;
  if deleted_count =? 0 then raise (HTTPException 404 "Product not found")
  else
    create_document_auditlog (mkAuditLog "delete_product" "product" product_id []);;
    mret Deleted.

(** [{i.product_id: i.quantity for i in items}]: a later item replaces
    an earlier one with the same key. *)
Definition id_to_qty (items : list CheckoutItem) : gmap string Z :=
  foldl (fun m i => <[product_id i := quantity i]> m) ∅ items.

(** [id_to_qty.get(str(d["_id"])) or 1] *)
Definition qty_of (m : gmap string Z) (d : Product) : Z :=
  Py.or_1 (m !! str (prod_id d)).

(** The body of the loop over [docs] in [create_checkout], on the
    local variables [total] and [line_items]. *)
Definition checkout_line (m : gmap string Z)
    (s : float * list LineItem) (d : Product) : M (float * list LineItem) :=
  let '(total, line_items) := s in
  let qty := qty_of m d in
  cents ← mul_int (price (prod_in d)) 100;
  price_cents ← int cents;
  amount ← mul_int (price (prod_in d)) qty;
  mret ((total + amount)%float,
        (line_items ++ [mkLineItem (currency (prod_in d)) (title (prod_in d))
                                   (str (prod_id d)) price_cents qty])%list).

(** The snapshot of a product in a purchase's [items]. *)
Definition snapshot (d : Product) : PurchaseItem :=
  mkPurchaseItem (str (prod_id d)) (title (prod_in d))
                 (price (prod_in d)) (seller_id (prod_in d)).

(** [POST /api/checkout/create-session] *)
Definition create_checkout (req : CheckoutRequest) (new_id : ObjectId) : M Response :=
  product_ids ← for_list (req_items req) (fun i => oid (product_id i));
  docs ← db_product.find_in product_ids;
  match docs with
  | [] => raise (HTTPException 400 "No valid items")
  | d0 :: _ =>
      '(total, line_items) ←
        for_fold docs (checkout_line (id_to_qty (req_items req))) (0%float, []);
      purchase_id ← create_document_purchase new_id (fun i =>
        mkPurchase i (req_buyer_email req) (snapshot <$> docs) total
                   (currency (prod_in d0)) (req_provider req) pending None);
      if bool_decide (req_provider req = "stripe") && negb (Py.falsy (api_key stripe))
      then
        match Session_create stripe
                (mkSessionParams (req_buyer_email req) line_items
                   ("https://example.com/success?purchase_id=" +:+ purchase_id)
                   ("https://example.com/cancel?purchase_id=" +:+ purchase_id)) with
        | inl e => raise (StripeError e)
        | inr session =>
            o ← oid purchase_id;
            db_purchase.update_one_set o (set_transaction_id (session_id session));;
            mret (StripeCheckout (session_id session) (session_url session))
        end
      else
        o ← oid purchase_id;
        db_purchase.update_one_set o
          (fun p => set_transaction_id "demo_txn" (set_payment_status paid p));;
        for_each docs (fun d => db_product.update_one_inc_sales (Whole (prod_id d)));;
        mret (DemoCheckout (req_provider req) purchase_id)
  end.

(** [POST /api/stripe/webhook], on the request's body and its
    [stripe-signature] header. *)
Definition stripe_webhook (payload : string) (sig_header : option string) : M Response :=
  if Py.falsy STRIPE_WEBHOOK_SECRET then mret Received
  else
    match construct_event stripe payload sig_header STRIPE_WEBHOOK_SECRET with
    | inl e => raise (HTTPException 400 e)
    | inr event =>
        (if bool_decide (event_type event = "checkout.session.completed") then
           purchase ← db_purchase.find_one_by_transaction_id (event_object_id event);
           match purchase with
           | Some purchase =>
               db_purchase.update_one_set (Whole (pur_id purchase))
                 (set_payment_status paid);;
               for_each (items purchase) (fun it =>
                 o ← oid (item_product_id it);
                 db_product.update_one_inc_sales o)
           | None => mret tt
           end
         else mret tt);;
        mret Received
    end.

(** A request to one of the handlers above, with the identity the
    driver will generate where the handler inserts a record. These are
    the endpoints that write to the [product] and [purchase] collections;
    the other endpoints of [main.py] only read them, or write to other
    collections. Of those, [update_settings] also appends a record to
    [auditlog]. *)
Inductive Request :=
| GetProduct (product_id : string)
| CreateProduct (product : ProductIn) (new_id : ObjectId)
| UpdateProduct (product_id : string) (product : ProductIn)
| DeleteProduct (product_id : string)
| CreateCheckout (req : CheckoutRequest) (new_id : ObjectId)
| StripeWebhook (payload : string) (sig_header : option string).

Definition handle (r : Request) : M Response :=
  match r with
  | GetProduct i => get_product i
  | CreateProduct p n => create_product p n
  | UpdateProduct i p => update_product i p
  | DeleteProduct i => delete_product i
  | CreateCheckout q n => create_checkout q n
  | StripeWebhook b h => stripe_webhook b h
  end.

(** The world after a sequence of requests, served one after another. *)
Definition serve (rs : list Request) (w : World) : World :=
  foldl (fun w r => snd (handle r w)) w rs.

End Handlers.

(** ** Observations the statements use *)

(** [stats.sales] of the product [find_one({"_id": o})] would return. *)
Definition sales_of (ps : list Product) (o : ObjectId) : option Z :=
  (fun p => sales (prod_stats p)) <$> List.find (has_id o) ps.

(** How many times [o] occurs in [ids]. *)
Definition occurrences (o : ObjectId) (ids : list ObjectId) : Z :=
  Z.of_nat (length (filter (fun x => x = o) ids)).

(** The catalog after one [$inc] of [stats.sales] per id of [ids]. *)
Definition sold (ids : list ObjectId) (ps : list Product) : list Product :=
  foldl (fun ps o => update_first (has_id o) inc_sales ps) ps ids.

(** The product ids a purchase's line items refer to, where each is the
    24 hex digits of an id. *)
Definition item_ids (its : list PurchaseItem) : option (list ObjectId) :=
  mapM (fun it => ObjectId_of_str (item_product_id it)) its.

(** The ids of a cart as [ObjectId] reads them, where it refuses none. *)
Definition parse_ids (its : list CheckoutItem) : option (list Parsed) :=
  mapM (fun i => ObjectId_parse (product_id i)) its.

(** The cart item [i] asks for the product [p]. *)
Definition asks_for (p : Product) (i : CheckoutItem) : Prop :=
  ObjectId_of_str (product_id i) = Some (prod_id p).

#[global] Instance asks_for_dec p i : Decision (asks_for p i).
Proof. unfold asks_for. apply _. Defined.

(** A product id of a request resolves against the catalog. *)
Definition resolves (ps : list Product) (id_str : string) : bool :=
  match ObjectId_of_str id_str with
  | Some o => bool_decide (o ∈ prod_id <$> ps)
  | None => false
  end.

(** The catalog's products some cart item asks for, in catalog order. *)
Definition resolved (ps : list Product) (its : list CheckoutItem) : list Product :=
  filter (fun p => Exists (asks_for p) its) ps.


(** Unit price times quantity, as a float. *)
Definition amount (p : Product) (q : Z) : float :=
  (price (prod_in p) * Py.round_int q)%float.





(** The price of a product in cents, as sent to the provider. *)
Definition price_cents (p : Product) : Z :=
  default 0 (Py.int_of_float (price (prod_in p) * 100)%float).


(** A purchase as a later state records it: same identity, same
    line-item snapshots and total, and a status that either stayed or
    became [paid]. *)
Definition kept (p p' : Purchase) : Prop :=
  pur_id p' = pur_id p /\ items p' = items p /\
  total_amount p' = total_amount p /\
  (payment_status p' = payment_status p \/ payment_status p' = paid).

(** A purchase as a handler creates it. *)
Definition created (p : Purchase) : Prop :=
  payment_status p = pending \/ payment_status p = paid.

(** The purchase collection [l'] is a later state of [l]: every record
    of [l] is still there, in place, and [kept]; the rest is new. *)
Definition later (l l' : list Purchase) : Prop :=
  exists l1 l2, l' = (l1 ++ l2)%list /\ Forall2 kept l l1 /\ Forall created l2.

(** ** Properties of computations *)

(** [preserves R m]: whatever [m] does, and whether it returns or
    raises, the database it leaves is [R]-related to the one it found. *)
Definition preserves {A} (R : DB -> DB -> Prop) (m : M A) : Prop :=
  forall w, R (db w) (db (snd (m w))).

(** A computation that neither reads nor writes the world. *)
Definition pure {A} (m : M A) : Prop := exists r, forall w, m w = (r, w).

Definition purchases_later (d d' : DB) : Prop := later (purchase d) (purchase d').

Definition purchases_same (d d' : DB) : Prop := purchase d' = purchase d.

(** The purchase record [create_checkout] inserts for the products
    [docs] it found, of which [d0] is the first, given the loop's
    [total]. *)
Definition inserted (req : CheckoutRequest) (new_id : ObjectId)
    (docs : list Product) (d0 : Product) (total : float) : Purchase :=
  mkPurchase new_id (req_buyer_email req) (snapshot <$> docs) total
             (currency (prod_in d0)) (req_provider req) pending None.

(** ** A provider and a catalog to run the handlers on *)

Module Demo.

(** A provider whose signature scheme is the secret itself, whose event
    payload is the session id, and which opens the session
    ["cs_test_1"]. *)
Definition provider (key event : string) : Stripe :=
  mkStripe key
    (fun _ => inr (mkSession "cs_test_1" "https://checkout.stripe.com/c/pay/cs_test_1"))
    (fun payload sig_header secret =>
       if bool_decide (sig_header = Some secret)
       then inr (mkEvent event (Some payload))
       else inl "No signatures found matching the expected signature for payload").

Definition completed : string := "checkout.session.completed".

Definition P1 : ObjectId := mkObjectId "507f1f77bcf86cd799439011" I.
Definition P2 : ObjectId := mkObjectId "507f1f77bcf86cd799439012" I.
Definition N1 : ObjectId := mkObjectId "65a1b2c3d4e5f60718293a4b" I.

Definition book (pr : float) : ProductIn :=
  mkProductIn "seller-1" "Book" None pr "usd" None [] None None.

(** One product, [P1], priced 10.00, never sold. *)
Definition catalog : list Product :=
  [mkProduct P1 (book 10) "active" (mkStats 0 0)].

Definition shop : World := mkWorld (mkDB catalog [] []) [].

(** Two products: [P1] at 10.00 and [P2] at 2.50; [P3] is in no
    catalog. *)
Definition P3 : ObjectId := mkObjectId "507f1f77bcf86cd799439013" I.

(** A string of 24 characters that [ObjectId] reads as eight bytes. *)
Definition spaced : string := "50 7f 1f 77 bc f8 6c d7 ".

Definition catalog2 : list Product :=
  [mkProduct P1 (book 10) "active" (mkStats 0 0);
   mkProduct P2 (book 2.5) "active" (mkStats 0 0)].

Definition shop2 : World := mkWorld (mkDB catalog2 [] []) [].


Definition cart (its : list (string * Z)) (prov : string) : CheckoutRequest :=
  mkCheckoutRequest "buyer@example.com"
    ((fun i => mkCheckoutItem (fst i) (snd i)) <$> its) prov.

(** A purchase of [P1] with the session ["cs_test_1"] on it, in the
    given status. *)
Definition order (s : PaymentStatus) : Purchase :=
  mkPurchase N1 "buyer@example.com"
    [mkPurchaseItem (str P1) "Book" 10 "seller-1"] 10 "usd" "stripe" s
    (Some "cs_test_1").

Definition shop_with (s : PaymentStatus) : World :=
  mkWorld (mkDB catalog [order s] []) [].

(** The provider with a key, the webhook secret, and an authentic
    delivery of the completed event for the session ["cs_test_1"]. *)
Definition stripe : Stripe := provider "sk_test" completed.
Definition secret : string := "whsec_1".
Definition deliver : M Response :=
  stripe_webhook stripe secret "cs_test_1" (Some secret).

(** The provider without a key: checkout takes the fallback path. *)
Definition no_stripe : Stripe := provider "" completed.

End Demo.

(** ** Further observations *)

(** The product [find_one({"_id": o})] would return. *)
Definition doc_of (ps : list Product) (o : ObjectId) : option Product :=
  List.find (has_id o) ps.

(** [stats.views] of that product. *)
Definition views_of (ps : list Product) (o : ObjectId) : option Z :=
  (fun p => views (prod_stats p)) <$> doc_of ps o.

(** A product as a later state has it: same identity and status, and
    counters that have not gone down. *)
Definition grows (p p' : Product) : Prop :=
  prod_id p' = prod_id p /\ prod_status p' = prod_status p /\
  views (prod_stats p) <= views (prod_stats p') /\
  sales (prod_stats p) <= sales (prod_stats p').

(** Every id that resolved still resolves, to a product that [grows]. *)
Definition products_grow (d d' : DB) : Prop :=
  forall o p, doc_of (product d) o = Some p ->
    exists p', doc_of (product d') o = Some p' /\ grows p p'.

Definition is_delete (r : Request) : bool :=
  match r with
  | DeleteProduct _ => true
  | _ => false
  end.

(** A product after settlement: everything as before but [stats.sales],
    which has not gone down. *)
Definition same_but_sales (p p' : Product) : Prop :=
  prod_id p' = prod_id p /\ prod_in p' = prod_in p /\
  prod_status p' = prod_status p /\
  views (prod_stats p') = views (prod_stats p) /\
  sales (prod_stats p) <= sales (prod_stats p').

(** The same products in the same order, each [same_but_sales], and the
    same audit log. *)
Definition only_sales_change (d d' : DB) : Prop :=
  Forall2 same_but_sales (product d) (product d') /\ auditlog d' = auditlog d.

(** [m] raises nothing but exceptions that satisfy [P]. *)
Definition raises_only {A} (P : Exn -> Prop) (m : M A) : Prop :=
  forall w e w', m w = (Raise e, w') -> P e.

(** The exceptions of a failed conversion. *)
Definition is_conversion_error (e : Exn) : Prop :=
  e = OverflowError \/ e = ValueError.

(** The audit record a request writes when it succeeds. *)
Definition audit_record (r : Request) : option AuditLog :=
  match r with
  | CreateProduct data new_id =>
      Some (mkAuditLog "create_product" "product" (str new_id)
                       [("seller_id", seller_id data)])
  | UpdateProduct product_id _ =>
      Some (mkAuditLog "update_product" "product" product_id [])
  | DeleteProduct product_id =>
      Some (mkAuditLog "delete_product" "product" product_id [])
  | _ => None
  end.

Definition audit_same (d d' : DB) : Prop := auditlog d' = auditlog d.

(** ** The seller collection

    [set_seller_status] and [seller_stripe_onboard] use the [seller]
    collection only; they are embedded as functions from the collection
    to the outcome and the collection they leave. *)

(** A document of the [seller] collection. An upsert creates a document
    with the filter's [user_id] and the field it sets, so every other
    field may be absent. No handler looks a seller up by [_id], and the
    model does not keep it. *)
Record Seller := mkSeller {
  user_id : string;
  display_name : option string;
  bio : option string;
  stripe_connect_id : option string;
  seller_status : option string
}.

Definition has_user_id (u : string) (s : Seller) : bool :=
  bool_decide (user_id s = u).

(** [find_one({"user_id": u})] *)
Definition seller_of (sellers : list Seller) (u : string) : option Seller :=
  List.find (has_user_id u) sellers.

Definition set_status (status : string) (s : Seller) : Seller :=
  mkSeller (user_id s) (display_name s) (bio s) (stripe_connect_id s) (Some status).

Definition set_stripe_connect_id (account : string) (s : Seller) : Seller :=
  mkSeller (user_id s) (display_name s) (bio s) (Some account) (seller_status s).

(** [db.seller.update_one({"user_id": u}, {"$set": ...}, upsert=True)]:
    the [$set] applies to the first match, or to a new document holding
    only [user_id]. *)
Definition upsert_seller (u : string) (f : Seller -> Seller) (sellers : list Seller)
    : list Seller :=
  match seller_of sellers u with
  | Some _ => update_first (has_user_id u) f sellers
  | None => (sellers ++ [f (mkSeller u None None None None)])%list
  end.

(** [PUT /api/admin/sellers/{seller_user_id}/status] *)
Definition set_seller_status (seller_user_id status : string) (sellers : list Seller)
    : Result Response * list Seller :=
  if negb (bool_decide (status ∈ ["pending"; "approved"; "suspended"]))
  then (Raise (HTTPException 400 "Invalid status"), sellers)
  else (Return Updated, upsert_seller seller_user_id (set_status status) sellers).

(** [POST /api/seller/stripe/onboard], answering the link's url.
    [Account_create] stands for [stripe.Account.create(type="express")]
    and answers the account's id, [AccountLink_create] for
    [stripe.AccountLink.create] on that id and answers the link's url;
    [inl] carries the message of the exception raised. *)
Definition seller_stripe_onboard (key : string) (Account_create : string + string)
    (AccountLink_create : string -> string + string)
    (seller_id : string) (sellers : list Seller) : Result string * list Seller :=
  if Py.falsy key then (Return "https://dashboard.stripe.com/register", sellers)
  else
    match Account_create with
    | inl e => (Raise (StripeError e), sellers)
    | inr account =>
        match AccountLink_create account with
        | inl e => (Raise (StripeError e), sellers)
        | inr url =>
            (Return url, upsert_seller seller_id (set_stripe_connect_id account) sellers)
        end
    end.

(** ** The conversions on small inputs *)

Example float_of_int_ties_to_even :
  Py.float_of_int (2 ^ 53 + 1) = Some 9007199254740992%float /\
  Py.float_of_int (2 ^ 53 + 3) = Some 9007199254740996%float /\
  Py.float_of_int (-3) = Some (-3)%float.
Proof. repeat split. Qed.

Example float_of_int_overflow :
  Py.float_of_int (2 ^ 1024 - 2 ^ 970 - 1) = Some 0x1.fffffffffffffp+1023%float /\
  Py.float_of_int (2 ^ 1024 - 2 ^ 970) = None.
Proof. repeat split. Qed.

Example int_of_float_truncates :
  Py.int_of_float 2.5 = Some 2 /\ Py.int_of_float (-2.5) = Some (-2) /\
  Py.int_of_float 0.75 = Some 0 /\ Py.int_of_float (-0) = Some 0.
Proof. repeat split. Qed.

Example int_of_float_raises :
  Py.int_of_float infinity = None /\ Py.int_of_float nan = None.
Proof. repeat split. Qed.

Example ObjectId_of_str_accepts_upper_case :
  str <$> ObjectId_of_str "507F1F77BCF86CD799439011" = Some "507f1f77bcf86cd799439011".
Proof. reflexivity. Qed.

Example ObjectId_of_str_rejects :
  ObjectId_of_str "507f1f77bcf86cd79943901" = None /\
  ObjectId_of_str "507f1f77bcf86cd79943901g" = None.
Proof. repeat split. Qed.

Example fromhex_skips_whitespace :
  fromhex "50 7F" = Some "507f" /\ fromhex " " = Some "" /\
  fromhex "5 0" = None /\ fromhex "50 7" = None.
Proof. repeat split. Qed.

(** [ObjectId] refuses a string that has not 24 characters, or a
    character that is neither a hex digit nor whitespace, or half a byte;
    24 characters with whitespace between the bytes give a shorter
    object, which [oid] returns. *)
Example ObjectId_parse_on_whitespace :
  ObjectId_parse "not-an-id" = None /\
  ObjectId_parse "507f1f77bcf86cd79943901g" = None /\
  ObjectId_parse "507f1f77bcf86cd7 9943901" = None /\
  ObjectId_parse Demo.spaced = Some (Short "507f1f77bcf86cd7") /\
  ObjectId_of_str Demo.spaced = None /\
  oid Demo.spaced Demo.shop = (Return (Short "507f1f77bcf86cd7"), Demo.shop).
Proof. repeat split. Qed.

(** Scenario B of the specification: checkout of [P1] with quantity 2
    through the provider stores a pending purchase of 20.00 under the
    session reference; the completed event for that session then sets it
    to [paid] and counts one sale. *)
Example checkout_then_completed_event :
  let w1 := snd (create_checkout Demo.stripe (Demo.cart [(str Demo.P1, 2)] "stripe")
                   Demo.N1 Demo.shop) in
  let w2 := snd (Demo.deliver w1) in
  (fun p => (payment_status p, total_amount p, transaction_id p)) <$> purchase (db w1) =
    [(pending, 20%float, Some "cs_test_1")] /\
  payment_status <$> purchase (db w2) = [paid] /\
  sales_of (product (db w1)) Demo.P1 = Some 0 /\
  sales_of (product (db w2)) Demo.P1 = Some 1.
Proof. vm_compute. repeat split. Qed.

(** ** ObjectId strings *)

Lemma lower_ascii_hex (c : ascii) : is_lower_hex c = true -> lower_ascii c = c.
Proof.
  unfold is_lower_hex, lower_ascii. intros H.
  destruct ((65 <=? N_of_ascii c)%N && (N_of_ascii c <=? 90)%N) eqn:E; [|done].
  apply andb_true_iff in E as [E1 E2].
  apply N.leb_le in E1, E2.
  apply orb_true_iff in H as [H | H];
    apply andb_true_iff in H as [H1 H2];
    apply N.leb_le in H1, H2; lia.
Qed.

Lemma lower_canonical (s : string) : all_lower_hex s = true -> lower s = s.
Proof.
  induction s as [| c s IH]; simpl; [done|].
  intros [Hc Hs]%andb_true_iff.
  by rewrite lower_ascii_hex, IH.
Qed.

Lemma is_oid_hex_lower (s : string) : is_oid_hex s = true -> lower s = s.
Proof. intros [_ H]%andb_true_iff. by apply lower_canonical. Qed.

Lemma length_lower (s : string) : String.length (lower s) = String.length s.
Proof. induction s as [| c s IH]; simpl; congruence. Qed.

Lemma hex_not_space (c : ascii) : is_hex c = true -> is_space c = false.
Proof.
  unfold is_hex, is_lower_hex, is_space, lower_ascii.
  destruct ((65 <=? N_of_ascii c)%N && (N_of_ascii c <=? 90)%N) eqn:E.
  - apply andb_true_iff in E as [E1 E2]. apply N.leb_le in E1, E2. intros _.
    apply orb_false_iff. split; [apply N.eqb_neq; lia|].
    apply andb_false_iff. right. apply N.leb_gt. lia.
  - intros H. apply orb_true_iff in H as [H | H];
      apply andb_true_iff in H as [H1 H2]; apply N.leb_le in H1, H2;
      (apply orb_false_iff; split; [apply N.eqb_neq; lia|];
       apply andb_false_iff; right; apply N.leb_gt; lia).
Qed.

(** What [fromhex] returns is hex digits, no more of them than the
    string has characters, and as many only when it skipped nothing. *)
Lemma fromhex_hex (n : nat) (s h : string) :
  (String.length s <= n)%nat ->
  fromhex s = Some h ->
  (String.length h <= String.length s)%nat /\ all_lower_hex h = true /\
  (String.length h = String.length s -> h = lower s).
Proof.
  revert s h. induction n as [| n IH]; intros s h Hn.
  - destruct s; [|simpl in Hn; lia]. intros [= <-]. done.
  - destruct s as [| c s]; [intros [= <-]; done|]. cbn [fromhex].
    simpl in Hn.
    destruct (is_space c).
    { intros H. destruct (IH s h ltac:(lia) H) as (Hl & Hh & _).
      simpl. split; [lia|]. split; [done|]. lia. }
    destruct s as [| c' s]; [done|].
    destruct (is_hex c && is_hex c') eqn:E; [|done].
    apply andb_true_iff in E as [Ec Ec'].
    destruct (fromhex s) as [h'|] eqn:Hs; [|done]. intros [= <-].
    simpl in Hn. destruct (IH s h' ltac:(lia) Hs) as (Hl & Hh & He).
    cbn [String.length all_lower_hex lower]. unfold is_hex in Ec, Ec'.
    rewrite Ec, Ec', Hh. split; [lia|]. split; [done|].
    intros E. rewrite He by lia. done.
Qed.

(** On hex digits, an even number of them, [fromhex] skips nothing. *)
Lemma fromhex_all_hex (n : nat) (s : string) :
  (String.length s <= n)%nat ->
  all_lower_hex (lower s) = true ->
  Nat.even (String.length s) = true ->
  fromhex s = Some (lower s).
Proof.
  revert s. induction n as [| n IH]; intros s Hn.
  - destruct s; [done | simpl in Hn; lia].
  - destruct s as [| c s]; [done|]. destruct s as [| c' s]; [done|].
    cbn [lower all_lower_hex String.length fromhex]. simpl in Hn.
    intros [Hc [Hc' Hs]%andb_true_iff]%andb_true_iff Hev.
    rewrite (hex_not_space c Hc). unfold is_hex. rewrite Hc, Hc'. cbn [andb].
    rewrite (IH s ltac:(lia) Hs Hev). done.
Qed.

(** The strings that denote an id of twelve bytes are those of 24 hex
    digits, and the id is the string in lower case. *)
Lemma ObjectId_of_str_spec (s : string) :
  ObjectId_of_str s =
  match decide (Is_true (is_oid_hex (lower s))) with
  | left H => Some (mkObjectId (lower s) H)
  | right _ => None
  end.
Proof.
  unfold ObjectId_of_str, ObjectId_parse.
  destruct (decide (Is_true (is_oid_hex (lower s)))) as [H | H].
  - pose proof (Is_true_true_1 _ H) as [Hl Hh]%andb_true_iff.
    rewrite length_lower in Hl. rewrite Hl.
    apply Nat.eqb_eq in Hl.
    rewrite (fromhex_all_hex _ s (Nat.le_refl _) Hh) by (by rewrite Hl).
    cbn [mbind option_bind].
    destruct (decide (Is_true (is_oid_hex (lower s)))) as [H' | H']; [|done].
    f_equal. by apply ObjectId_eq.
  - destruct (String.length s =? 24)%nat eqn:Hl; [|done].
    destruct (fromhex s) as [h|] eqn:Hs; [|done]. cbn [mbind option_bind].
    destruct (decide (Is_true (is_oid_hex h))) as [Hv | Hv]; [|done].
    exfalso. apply H.
    destruct (fromhex_hex _ s h (Nat.le_refl _) Hs) as (_ & _ & He).
    pose proof (Is_true_true_1 _ Hv) as [Hlh _]%andb_true_iff.
    apply Nat.eqb_eq in Hl, Hlh. rewrite <- He by lia. done.
Qed.

Lemma ObjectId_of_str_canonical (s : string) (H : Is_true (is_oid_hex s)) :
  ObjectId_of_str s = Some (mkObjectId s H).
Proof.
  rewrite ObjectId_of_str_spec.
  pose proof (is_oid_hex_lower s (Is_true_true_1 _ H)) as E.
  destruct (decide (Is_true (is_oid_hex (lower s)))) as [H' | H'].
  - f_equal. by apply ObjectId_eq.
  - rewrite E in H'. done.
Qed.

(** Printing then parsing an ObjectId gives it back. *)
Lemma ObjectId_of_str_str (o : ObjectId) : ObjectId_of_str (str o) = Some o.
Proof. destruct o as [h v]. apply ObjectId_of_str_canonical. Qed.

Lemma str_ObjectId_of_str (s : string) (o : ObjectId) :
  ObjectId_of_str s = Some o -> str o = lower s.
Proof.
  rewrite ObjectId_of_str_spec.
  destruct (decide _); [|done]. by intros [= <-].
Qed.

(** [ObjectId] on a string that denotes an id returns that id. *)
Lemma ObjectId_parse_Whole (s : string) (o : ObjectId) :
  ObjectId_parse s = Some (Whole o) <-> ObjectId_of_str s = Some o.
Proof.
  unfold ObjectId_of_str. destruct (ObjectId_parse s) as [[o' | h] |]; split; congruence.
Qed.

(** An object of fewer than twelve bytes is the [_id] of no document. *)
Lemma update_first_never {A} (f : A -> A) (l : list A) :
  update_first (fun _ => false) f l = l.
Proof. induction l as [| x l IH]; simpl; congruence. Qed.

Lemma find_never {A} (l : list A) : List.find (fun _ => false) l = None.
Proof. induction l as [| x l IH]; simpl; congruence. Qed.


(** ** Running a computation *)

Lemma bind_run {A B} (m : M A) (k : A -> M B) (w : World) :
  (m ≫= k) w =
  match m w with
  | (Return a, w') => k a w'
  | (Raise e, w') => (Raise e, w')
  end.
Proof. reflexivity. Qed.

Lemma oid_run (s : string) (w : World) :
  oid s w =
  (match ObjectId_parse s with
   | Some k => Return k
   | None => Raise (HTTPException 400 "Invalid id")
   end, w).
Proof. unfold oid, from_option. by destruct (ObjectId_parse s). Qed.

Lemma oid_Whole (s : string) (o : ObjectId) (w : World) :
  ObjectId_of_str s = Some o -> oid s w = (Return (Whole o), w).
Proof. intros H. apply ObjectId_parse_Whole in H. by rewrite oid_run, H. Qed.

Lemma oid_str (o : ObjectId) (w : World) : oid (str o) w = (Return (Whole o), w).
Proof. apply oid_Whole, ObjectId_of_str_str. Qed.

Lemma for_list_oid (its : list CheckoutItem) (w : World) :
  for_list its (fun i => oid (product_id i)) w =
  (match parse_ids its with
   | Some ids => Return ids
   | None => Raise (HTTPException 400 "Invalid id")
   end, w).
Proof.
  induction its as [| i its IH]; [done|].
  unfold parse_ids in *. cbn [for_list mapM].
  rewrite bind_run, oid_run.
  destruct (ObjectId_parse (product_id i)) as [k|]; [|done].
  rewrite bind_run, IH. cbn [mbind option_bind].
  by destruct (mapM _ its).
Qed.

(** ** The webhook without a secret, and with a bad signature *)

Section Webhook.
Variable stripe : Stripe.

(** C9. With an empty [STRIPE_WEBHOOK_SECRET] the webhook answers
    [{"received": True}] to every request, whatever the provider's
    verification would say, and leaves the world as it was: no driver
    call is issued (no lookup) and no record changes. The same holds
    after any number of deliveries. *)
Theorem webhook_without_secret_ignores (w : World) :
  (forall payload sig_header,
      stripe_webhook stripe "" payload sig_header w = (Return Received, w)) /\
  (forall deliveries : list (string * option string),
      serve stripe "" ((fun d => StripeWebhook (fst d) (snd d)) <$> deliveries) w = w).
Proof.
  split; [done|].
  intros ds. induction ds as [| d ds IH]; [done|]. exact IH.
Qed.

(** C6. With a secret configured, a notification whose signature
    verification fails is answered 400 with the verifier's message, and
    the world is as before: no driver call was issued (nothing was
    looked up) and no record changed. *)
Theorem webhook_rejects_bad_signature
    (secret payload : string) (sig_header : option string) (e : string) (w : World) :
  secret <> "" ->
  construct_event stripe payload sig_header secret = inl e ->
  stripe_webhook stripe secret payload sig_header w =
    (Raise (HTTPException 400 e), w).
Proof.
  intros Hs He. unfold stripe_webhook, Py.falsy.
  rewrite bool_decide_eq_false_2 by done. by rewrite He.
Qed.

End Webhook.

Lemma webhook_rejects_bad_signature_witness :
  stripe_webhook (Demo.provider "sk_test" Demo.completed) "whsec_1"
                 "cs_test_1" (Some "forged") (Demo.shop_with pending) =
    (Raise (HTTPException 400 "No signatures found matching the expected signature for payload"),
     Demo.shop_with pending).
Proof.
  apply (webhook_rejects_bad_signature (Demo.provider "sk_test" Demo.completed)
           "whsec_1" "cs_test_1" (Some "forged")); [done | reflexivity].
Defined.

Lemma find_none_Forall {A} (f : A -> bool) (l : list A) :
  Forall (fun x => f x = false) l -> List.find f l = None.
Proof.
  induction 1 as [| x l Hx _ IH]; [done|]. simpl. by rewrite Hx.
Qed.

Lemma parse_ids_elem (its : list CheckoutItem) (ks : list Parsed) (o : ObjectId) :
  parse_ids its = Some ks ->
  Whole o ∈ ks <-> Exists (fun i => ObjectId_of_str (product_id i) = Some o) its.
Proof.
  unfold parse_ids. rewrite mapM_Some. intros H.
  induction H as [| i k its ks Hi _ IH].
  - rewrite Exists_nil. set_solver.
  - rewrite Exists_cons, elem_of_cons, IH, <- ObjectId_parse_Whole. split.
    + intros [-> | ?]; [by left | by right].
    + intros [? | ?]; [left; congruence | by right].
Qed.

Lemma filter_none {A} (P : A -> Prop) `{!forall x, Decision (P x)} (l : list A) :
  Forall (fun x => ~ P x) l -> filter P l = [].
Proof.
  induction 1 as [| x l Hx _ IH]; [done|].
  by rewrite filter_cons_False.
Qed.

Lemma find_in_run (ks : list Parsed) (w : World) :
  db_product.find_in ks w =
  (Return (filter (fun p => Whole (prod_id p) ∈ ks) (product (db w))),
   mkWorld (db w) (calls w ++ [Find "product"])).
Proof. reflexivity. Qed.

Section Rejections.
Variable stripe : Stripe.

(** C7. An authentic event that is not a completed checkout, or whose
    session reference is on no purchase, is acknowledged with
    [{"received": True}] and leaves every collection as it was. *)
Theorem webhook_acknowledges_unmatched
    (secret payload : string) (sig_header : option string) (event : Event) (w : World) :
  construct_event stripe payload sig_header secret = inr event ->
  event_type event <> "checkout.session.completed" \/
    Forall (fun p => transaction_id p <> event_object_id event) (purchase (db w)) ->
  fst (stripe_webhook stripe secret payload sig_header w) = Return Received /\
  db (snd (stripe_webhook stripe secret payload sig_header w)) = db w.
Proof.
  intros He Hno. unfold stripe_webhook.
  destruct (Py.falsy secret); [done|]. rewrite He.
  rewrite bind_run.
  destruct (bool_decide (event_type event = "checkout.session.completed")) eqn:Ht;
    [|done].
  apply bool_decide_eq_true in Ht.
  destruct Hno as [Hno | Hno]; [done|].
  rewrite bind_run. unfold db_purchase.find_one_by_transaction_id, call.
  rewrite find_none_Forall; [done|].
  eapply Forall_impl; [exact Hno|].
  intros p Hp. unfold db_purchase.has_transaction_id.
  by apply bool_decide_eq_false.
Qed.

(** C5. A cart none of whose product ids resolves against the catalog
    is rejected with a 400: ["Invalid id"] when [ObjectId] refuses one of
    the ids, ["No valid items"] when it reads them all (as ids of twelve
    bytes that no product has, or as shorter objects). No purchase is
    persisted and every collection is as it was. *)
Theorem checkout_rejects_unresolvable
    (req : CheckoutRequest) (new_id : ObjectId) (w : World) :
  Forall (fun i => resolves (product (db w)) (product_id i) = false) (req_items req) ->
  fst (create_checkout stripe req new_id w) =
    Raise (HTTPException 400
             (if parse_ids (req_items req) is Some _
              then "No valid items" else "Invalid id")) /\
  db (snd (create_checkout stripe req new_id w)) = db w.
Proof.
  intros Hno. unfold create_checkout.
  rewrite bind_run, for_list_oid.
  destruct (parse_ids (req_items req)) as [ks|] eqn:Hids; [|done].
  rewrite bind_run, find_in_run.
  assert (filter (fun p => Whole (prod_id p) ∈ ks) (product (db w)) = []) as ->; [|done].
  apply filter_none, Forall_forall. intros p Hp Hin.
  apply (parse_ids_elem _ _ _ Hids), Exists_exists in Hin as (i & Hi & Ho).
  rewrite Forall_forall in Hno. specialize (Hno i Hi).
  unfold resolves in Hno. rewrite Ho in Hno.
  apply bool_decide_eq_false in Hno. apply Hno.
  apply list_elem_of_fmap. eauto.
Qed.
End Rejections.

Lemma webhook_acknowledges_unmatched_witness :
  fst (stripe_webhook (Demo.provider "sk_test" Demo.completed) "whsec_1"
         "cs_unknown" (Some "whsec_1") (Demo.shop_with pending)) = Return Received /\
  db (snd (stripe_webhook (Demo.provider "sk_test" Demo.completed) "whsec_1"
         "cs_unknown" (Some "whsec_1") (Demo.shop_with pending))) =
    db (Demo.shop_with pending).
Proof.
  apply (webhook_acknowledges_unmatched (Demo.provider "sk_test" Demo.completed)
           "whsec_1" "cs_unknown" (Some "whsec_1")
           (mkEvent Demo.completed (Some "cs_unknown")));
    [reflexivity | right; repeat constructor; discriminate].
Defined.

Lemma checkout_rejects_unresolvable_witness :
  let run := fun its =>
    create_checkout (Demo.provider "" Demo.completed) (Demo.cart its "stripe")
                    Demo.N1 Demo.shop in
  (fst (run [(str Demo.P2, 1)]) = Raise (HTTPException 400 "No valid items") /\
   db (snd (run [(str Demo.P2, 1)])) = db Demo.shop) /\
  (fst (run [(Demo.spaced, 1)]) = Raise (HTTPException 400 "No valid items") /\
   db (snd (run [(Demo.spaced, 1)])) = db Demo.shop) /\
  (fst (run [(str Demo.P2, 1); ("not-an-id", 1)]) = Raise (HTTPException 400 "Invalid id") /\
   db (snd (run [(str Demo.P2, 1); ("not-an-id", 1)])) = db Demo.shop).
Proof.
  intros run. split; [| split].
  - apply (checkout_rejects_unresolvable (Demo.provider "" Demo.completed)
             (Demo.cart [(str Demo.P2, 1)] "stripe") Demo.N1 Demo.shop).
    repeat constructor.
  - apply (checkout_rejects_unresolvable (Demo.provider "" Demo.completed)
             (Demo.cart [(Demo.spaced, 1)] "stripe") Demo.N1 Demo.shop).
    repeat constructor.
  - apply (checkout_rejects_unresolvable (Demo.provider "" Demo.completed)
             (Demo.cart [(str Demo.P2, 1); ("not-an-id", 1)] "stripe") Demo.N1 Demo.shop).
    repeat constructor.
Defined.


(** ** What a computation preserves *)

Section Preserves.
Variable R : DB -> DB -> Prop.
Hypothesis R_refl : forall d, R d d.
Hypothesis R_trans : forall d1 d2 d3, R d1 d2 -> R d2 d3 -> R d1 d3.

Lemma preserves_ret {A} (a : A) : preserves R (mret a).
Proof. intros w. apply R_refl. Qed.

Lemma preserves_raise {A} (e : Exn) : preserves R (@raise A e).
Proof. intros w. apply R_refl. Qed.

Lemma preserves_bind {A B} (m : M A) (k : A -> M B) :
  preserves R m -> (forall a, preserves R (k a)) -> preserves R (m ≫= k).
Proof.
  intros Hm Hk w. rewrite bind_run. specialize (Hm w).
  destruct (m w) as [[a | e] w']; simpl in *; [|done].
  eapply R_trans; [exact Hm | apply Hk].
Qed.

Lemma preserves_call {A} (c : DbCall) (f : DB -> A * DB) :
  (forall d, R d (snd (f d))) -> preserves R (call c f).
Proof.
  intros Hf w. unfold call. specialize (Hf (db w)).
  by destruct (f (db w)).
Qed.

Lemma preserves_from_option {A} (e : Exn) (x : option A) :
  preserves R (from_option e x).
Proof. destruct x; [apply preserves_ret | apply preserves_raise]. Qed.

Lemma preserves_for_each {A} (l : list A) (body : A -> M unit) :
  (forall x, preserves R (body x)) -> preserves R (for_each l body).
Proof.
  intros Hb. induction l as [| x l IH]; [apply preserves_ret|].
  apply preserves_bind; [apply Hb | by intros _].
Qed.

Lemma preserves_for_fold {A S} (l : list A) (body : S -> A -> M S) (s : S) :
  (forall s x, preserves R (body s x)) -> preserves R (for_fold l body s).
Proof.
  intros Hb. revert s. induction l as [| x l IH]; intros s; [apply preserves_ret|].
  apply preserves_bind; [apply Hb | apply IH].
Qed.

Lemma preserves_for_list {A B} (l : list A) (f : A -> M B) :
  (forall x, preserves R (f x)) -> preserves R (for_list l f).
Proof.
  intros Hf. induction l as [| x l IH]; [apply preserves_ret|].
  apply preserves_bind; [apply Hf | intros y].
  apply preserves_bind; [apply IH | intros ys; apply preserves_ret].
Qed.

End Preserves.

(** Breaks a handler into its driver calls. *)
Ltac frame Hrefl Htrans :=
  repeat first
    [ apply (preserves_ret _ Hrefl)
    | apply (preserves_raise _ Hrefl)
    | apply (preserves_from_option _ Hrefl)
    | apply (preserves_bind _ Htrans); [| intros ?]
    | apply (preserves_for_each _ Hrefl Htrans); intros ?
    | apply (preserves_for_fold _ Hrefl Htrans); intros ? ?
    | apply (preserves_for_list _ Hrefl Htrans); intros ?
    | apply preserves_call; intros ?
    | match goal with
      | |- preserves _ (match ?x with _ => _ end) => destruct x
      | |- preserves _ (let (_, _) := ?x in _) => destruct x
      end ].

(** ** Purchases over time *)

Lemma kept_refl (p : Purchase) : kept p p.
Proof. unfold kept. tauto. Qed.

Lemma kept_trans (p1 p2 p3 : Purchase) : kept p1 p2 -> kept p2 p3 -> kept p1 p3.
Proof.
  unfold kept. intros (I1 & L1 & T1 & S1) (I2 & L2 & T2 & S2).
  repeat split; try congruence.
  destruct S2 as [S2 | S2]; [rewrite S2; exact S1 | by right].
Qed.

Lemma Forall2_kept_refl (l : list Purchase) : Forall2 kept l l.
Proof. induction l; constructor; [apply kept_refl | done]. Qed.

Lemma later_refl (l : list Purchase) : later l l.
Proof.
  exists l, []. rewrite app_nil_r. split; [done|].
  split; [apply Forall2_kept_refl | constructor].
Qed.

Lemma created_kept (p p' : Purchase) : created p -> kept p p' -> created p'.
Proof.
  unfold created, kept. intros Hc (_ & _ & _ & [S | S]); [rewrite S; exact Hc | by right].
Qed.

Lemma later_trans (l1 l2 l3 : list Purchase) : later l1 l2 -> later l2 l3 -> later l1 l3.
Proof.
  intros (a & b & -> & Ha & Hb) (c & d & -> & Hc & Hd).
  apply Forall2_app_inv_l in Hc as (c1 & c2 & Hc1 & Hc2 & ->).
  exists c1, (c2 ++ d)%list. rewrite <- app_assoc. split; [done|]. split.
  - clear -Ha Hc1. revert c1 Hc1.
    induction Ha as [| x y l l' Hxy _ IH]; intros c1 Hc1.
    + inversion Hc1. constructor.
    + inversion Hc1 as [| ? z ? c1' Hyz Hrest]; subst.
      constructor; [by eapply kept_trans | by apply IH].
  - apply Forall_app. split; [|done].
    clear -Hb Hc2. induction Hc2 as [| x y l l' Hxy _ IH]; [constructor|].
    inversion Hb; subst. constructor; [by eapply created_kept | by apply IH].
Qed.

Lemma Forall2_update_first {A} (R : A -> A -> Prop) (P : A -> bool) (f : A -> A)
    (l : list A) :
  (forall x, R x x) -> (forall x, R x (f x)) -> Forall2 R l (update_first P f l).
Proof.
  intros Hr Hf. induction l as [| x l IH]; simpl; [constructor|].
  destruct (P x); constructor; auto.
  clear IH. induction l; constructor; auto.
Qed.

Lemma later_update_first (P : Purchase -> bool) (f : Purchase -> Purchase)
    (l : list Purchase) :
  (forall p, kept p (f p)) -> later l (update_first P f l).
Proof.
  intros Hf. exists (update_first P f l), []. rewrite app_nil_r.
  split; [done|]. split; [|constructor].
  apply Forall2_update_first; [apply kept_refl | exact Hf].
Qed.

Lemma later_insert (l : list Purchase) (p : Purchase) :
  created p -> later l (l ++ [p]).
Proof.
  intros Hp. exists l, [p]. split; [done|].
  split; [apply Forall2_kept_refl | by constructor].
Qed.


Lemma purchases_later_refl d : purchases_later d d.
Proof. apply later_refl. Qed.

Lemma purchases_later_trans d1 d2 d3 :
  purchases_later d1 d2 -> purchases_later d2 d3 -> purchases_later d1 d3.
Proof. apply later_trans. Qed.

Lemma purchases_same_refl d : purchases_same d d.
Proof. done. Qed.

Lemma purchases_same_trans d1 d2 d3 :
  purchases_same d1 d2 -> purchases_same d2 d3 -> purchases_same d1 d3.
Proof. unfold purchases_same. congruence. Qed.

Lemma purchases_same_later d d' : purchases_same d d' -> purchases_later d d'.
Proof. unfold purchases_same, purchases_later. intros ->. apply later_refl. Qed.

Section Frames.
Variable stripe : Stripe.
Variable secret : string.

Lemma get_product_purchases i : preserves purchases_same (get_product i).
Proof.
  unfold get_product, oid, db_product.find_one, db_product.update_one_inc_views.
  frame purchases_same_refl purchases_same_trans; done.
Qed.

Lemma create_product_purchases p n : preserves purchases_same (create_product p n).
Proof.
  unfold create_product, create_document_product, create_document_auditlog.
  frame purchases_same_refl purchases_same_trans; done.
Qed.

Lemma update_product_purchases i p : preserves purchases_same (update_product i p).
Proof.
  unfold update_product, oid, db_product.update_one_set, create_document_auditlog.
  frame purchases_same_refl purchases_same_trans; done.
Qed.

Lemma delete_product_purchases i : preserves purchases_same (delete_product i).
Proof.
  unfold delete_product, oid, db_product.delete_one, create_document_auditlog.
  frame purchases_same_refl purchases_same_trans; done.
Qed.

Lemma create_checkout_purchases q n : preserves purchases_later (create_checkout stripe q n).
Proof.
  unfold create_checkout, checkout_line, mul_int, int, oid,
    db_product.find_in, db_product.update_one_inc_sales,
    db_purchase.update_one_set, create_document_purchase.
  frame purchases_later_refl purchases_later_trans;
    unfold purchases_later; simpl;
    first [ apply later_refl
          | apply later_insert; by left
          | apply later_update_first; intros ?; unfold kept; simpl; tauto ].
Qed.

Lemma stripe_webhook_purchases b h :
  preserves purchases_later (stripe_webhook stripe secret b h).
Proof.
  unfold stripe_webhook, oid, db_product.update_one_inc_sales,
    db_purchase.update_one_set, db_purchase.find_one_by_transaction_id.
  frame purchases_later_refl purchases_later_trans;
    unfold purchases_later; simpl;
    first [ apply later_refl
          | apply later_update_first; intros ?; unfold kept; simpl; tauto ].
Qed.

Lemma handle_purchases r : preserves purchases_later (handle stripe secret r).
Proof.
  destruct r; simpl; try apply stripe_webhook_purchases;
    try apply create_checkout_purchases;
    intros w; apply purchases_same_later;
    [ apply get_product_purchases | apply create_product_purchases
    | apply update_product_purchases | apply delete_product_purchases ].
Qed.

Lemma serve_purchases rs w :
  later (purchase (db w)) (purchase (db (serve stripe secret rs w))).
Proof.
  revert w. induction rs as [| r rs IH]; intros w; [apply later_refl|].
  simpl. eapply later_trans; [apply handle_purchases | apply IH].
Qed.

End Frames.

Lemma later_lookup (l l' : list Purchase) (i : nat) (p : Purchase) :
  later l l' -> l !! i = Some p -> exists p', l' !! i = Some p' /\ kept p p'.
Proof.
  intros (l1 & l2 & -> & H12 & _) Hi.
  destruct (Forall2_lookup_l _ _ _ _ _ H12 Hi) as (p' & Hp' & Hk).
  exists p'. split; [|done]. by apply lookup_app_l_Some.
Qed.

(** ** Sales counters *)

Lemma has_id_true (o : ObjectId) (p : Product) : prod_id p = o -> has_id o p = true.
Proof. intros H. by apply bool_decide_eq_true. Qed.

Lemma has_id_false (o : ObjectId) (p : Product) : prod_id p <> o -> has_id o p = false.
Proof. intros H. by apply bool_decide_eq_false. Qed.

Lemma find_update_first_id (f : Product -> Product) (i o : ObjectId) (ps : list Product) :
  (forall p, prod_id (f p) = prod_id p) ->
  List.find (has_id o) (update_first (has_id i) f ps) =
  (if decide (i = o) then f else id) <$> List.find (has_id o) ps.
Proof.
  intros Hf. induction ps as [| x ps IH]; [done|]. simpl.
  destruct (decide (prod_id x = i)) as [Hi | Hi];
    destruct (decide (prod_id x = o)) as [Ho | Ho].
  - rewrite (has_id_true i x Hi), (has_id_true o x Ho). simpl.
    rewrite has_id_true by (by rewrite Hf).
    rewrite decide_True by congruence. done.
  - rewrite (has_id_true i x Hi), (has_id_false o x Ho). simpl.
    rewrite has_id_false by (by rewrite Hf).
    rewrite decide_False by congruence. by rewrite option_fmap_id.
  - rewrite (has_id_false i x Hi), (has_id_true o x Ho). simpl.
    rewrite (has_id_true o x Ho).
    rewrite decide_False by congruence. done.
  - rewrite (has_id_false i x Hi), (has_id_false o x Ho). simpl.
    rewrite (has_id_false o x Ho). exact IH.
Qed.

Lemma sales_of_inc (i o : ObjectId) (ps : list Product) :
  sales_of (update_first (has_id i) inc_sales ps) o =
  (fun s => s + (if decide (i = o) then 1 else 0)) <$> sales_of ps o.
Proof.
  unfold sales_of. rewrite find_update_first_id by done.
  destruct (List.find (has_id o) ps) as [p|]; [|done]. simpl.
  destruct (decide (i = o)); simpl; f_equal; lia.
Qed.

Lemma occurrences_cons (o i : ObjectId) (ids : list ObjectId) :
  occurrences o (i :: ids) = (if decide (i = o) then 1 else 0) + occurrences o ids.
Proof.
  unfold occurrences. rewrite filter_cons.
  destruct (decide (i = o)); simpl length; lia.
Qed.

Lemma sales_of_sold (ids : list ObjectId) (ps : list Product) (o : ObjectId) :
  sales_of (sold ids ps) o = (fun s => s + occurrences o ids) <$> sales_of ps o.
Proof.
  revert ps. induction ids as [| i ids IH]; intros ps.
  - simpl. destruct (sales_of ps o); simpl; [f_equal; unfold occurrences; simpl; lia | done].
  - unfold sold in *. simpl. rewrite IH, sales_of_inc, occurrences_cons.
    destruct (sales_of ps o); simpl; [f_equal; lia | done].
Qed.

Lemma update_one_inc_sales_run (o : ObjectId) (w : World) :
  db_product.update_one_inc_sales (Whole o) w =
  (Return tt,
   mkWorld (set_product (db w) (update_first (has_id o) inc_sales (product (db w))))
           (calls w ++ [UpdateOne "product"])).
Proof. reflexivity. Qed.

(** The settlement loop of the webhook, over line items whose ids parse. *)
Lemma settle_items_run (its : list PurchaseItem) (ids : list ObjectId) (w : World) :
  item_ids its = Some ids ->
  exists w',
    for_each its (fun it =>
      o ← oid (item_product_id it); db_product.update_one_inc_sales o) w =
      (Return tt, w') /\
    product (db w') = sold ids (product (db w)) /\
    purchase (db w') = purchase (db w).
Proof.
  unfold item_ids. revert ids w.
  induction its as [| it its IH]; intros ids w H.
  - injection H as <-. by exists w.
  - cbn [mapM] in H.
    destruct (ObjectId_of_str (item_product_id it)) as [o|] eqn:Ho; [|done].
    destruct (mapM _ its) as [ids'|] eqn:Hids; [|done].
    injection H as <-.
    cbn [for_each]. rewrite bind_run, bind_run, (oid_Whole _ _ _ Ho), update_one_inc_sales_run.
    destruct (IH ids' (mkWorld
      (set_product (db w) (update_first (has_id o) inc_sales (product (db w))))
      (calls w ++ [UpdateOne "product"])) eq_refl) as (w' & H1 & H2 & H3).
    exists w'. split; [exact H1|]. split; [rewrite H2 | rewrite H3]; done.
Qed.

(** The settlement loop of the fallback path. *)
Lemma settle_docs_run (docs : list Product) (w : World) :
  exists w',
    for_each docs (fun d => db_product.update_one_inc_sales (Whole (prod_id d))) w =
      (Return tt, w') /\
    product (db w') = sold (prod_id <$> docs) (product (db w)) /\
    purchase (db w') = purchase (db w).
Proof.
  revert w. induction docs as [| d docs IH]; intros w; [by exists w|].
  cbn [for_each]. rewrite bind_run, update_one_inc_sales_run.
  destruct (IH (mkWorld
    (set_product (db w) (update_first (has_id (prod_id d)) inc_sales (product (db w))))
    (calls w ++ [UpdateOne "product"]))) as (w' & H1 & H2 & H3).
  exists w'. split; [exact H1|]. split; [rewrite H2 | rewrite H3]; done.
Qed.

(** ** What a delivery of a completed event does *)

Lemma update_one_set_run (o : ObjectId) (f : Purchase -> Purchase) (w : World) :
  db_purchase.update_one_set (Whole o) f w =
  (Return tt,
   mkWorld (set_purchase (db w) (update_first (db_purchase.has_id o) f (purchase (db w))))
           (calls w ++ [UpdateOne "purchase"])).
Proof. reflexivity. Qed.

Lemma find_one_by_transaction_id_run (t : option string) (w : World) :
  db_purchase.find_one_by_transaction_id t w =
  (Return (List.find (db_purchase.has_transaction_id t) (purchase (db w))),
   mkWorld (db w) (calls w ++ [FindOne "purchase"])).
Proof. reflexivity. Qed.

Lemma settle_items_purchases (its : list PurchaseItem) :
  preserves purchases_same (for_each its (fun it =>
    o ← oid (item_product_id it); db_product.update_one_inc_sales o)).
Proof.
  unfold oid, db_product.update_one_inc_sales.
  frame purchases_same_refl purchases_same_trans; done.
Qed.

Lemma find_update_first_frame {A} (Q P : A -> bool) (f : A -> A) (l : list A) (x : A) :
  (forall y, Q (f y) = Q y) ->
  List.find Q l = Some x ->
  exists x', List.find Q (update_first P f l) = Some x' /\ (x' = x \/ x' = f x).
Proof.
  intros HQ. induction l as [| y l IH]; [done|]. simpl.
  destruct (P y) eqn:HP; simpl.
  - rewrite HQ. destruct (Q y); [|eauto].
    intros [= <-]. eauto.
  - destruct (Q y); [|exact IH].
    intros [= <-]. eauto.
Qed.

Lemma update_first_idem {A} (P : A -> bool) (f : A -> A) (l : list A) :
  (forall y, P (f y) = P y) -> (forall y, f (f y) = f y) ->
  update_first P f (update_first P f l) = update_first P f l.
Proof.
  intros HP Hf. induction l as [| y l IH]; [done|]. simpl.
  destruct (P y) eqn:E; simpl.
  - by rewrite HP, E, Hf.
  - by rewrite E, IH.
Qed.

Section Delivery.
Variable stripe : Stripe.
Variables (secret payload : string) (sig_header : option string).
Variable event : Event.
Hypothesis configured : secret <> "".
Hypothesis authentic : construct_event stripe payload sig_header secret = inr event.
Hypothesis is_completed : event_type event = "checkout.session.completed".

Local Abbreviation deliver := (stripe_webhook stripe secret payload sig_header).

(** The purchase the event refers to is set to [paid], whatever its
    status and whatever happens to the line items afterwards. *)
Lemma deliver_purchases (p : Purchase) (w : World) :
  List.find (db_purchase.has_transaction_id (event_object_id event)) (purchase (db w)) = Some p ->
  purchase (db (snd (deliver w))) =
    update_first (db_purchase.has_id (pur_id p)) (set_payment_status paid) (purchase (db w)).
Proof.
  intros Hp. unfold stripe_webhook, Py.falsy.
  rewrite bool_decide_eq_false_2 by done. rewrite authentic.
  rewrite bool_decide_eq_true_2 by done.
  rewrite bind_run, bind_run, find_one_by_transaction_id_run, Hp.
  rewrite bind_run, update_one_set_run.
  match goal with
  | |- context [for_each ?l ?b ?w1] =>
      pose proof (settle_items_purchases l w1) as H;
      destruct (for_each l b w1) as [[[] | e] w2]; exact H
  end.
Qed.

(** Its line items' products are each incremented once per line. *)
Lemma deliver_settles (p : Purchase) (ids : list ObjectId) (w : World) :
  List.find (db_purchase.has_transaction_id (event_object_id event)) (purchase (db w)) = Some p ->
  item_ids (items p) = Some ids ->
  fst (deliver w) = Return Received /\
  product (db (snd (deliver w))) = sold ids (product (db w)).
Proof.
  intros Hp Hids. unfold stripe_webhook, Py.falsy.
  rewrite bool_decide_eq_false_2 by done. rewrite authentic.
  rewrite bool_decide_eq_true_2 by done.
  rewrite bind_run, bind_run, find_one_by_transaction_id_run, Hp.
  rewrite bind_run, update_one_set_run.
  match goal with
  | |- context [for_each ?l ?b ?w1] =>
      destruct (settle_items_run l ids w1 Hids) as (w' & -> & H2 & _)
  end.
  split; [done|]. exact H2.
Qed.

(** C1, as the code has it. Delivering the same authentic completed
    event twice, for a purchase whose line items carry well-formed
    product ids: both deliveries are acknowledged; the second leaves the
    purchase collection as the first left it; but the sales increments
    run on each delivery, one per line item, so that after the second
    delivery every referenced product has been counted twice. *)
Theorem redelivery_counts_sales_again (p : Purchase) (ids : list ObjectId) (w : World) :
  List.find (db_purchase.has_transaction_id (event_object_id event)) (purchase (db w)) = Some p ->
  item_ids (items p) = Some ids ->
  let w1 := snd (deliver w) in
  let w2 := snd (deliver w1) in
  fst (deliver w) = Return Received /\
  fst (deliver w1) = Return Received /\
  purchase (db w2) = purchase (db w1) /\
  forall o,
    sales_of (product (db w1)) o =
      (fun s => s + occurrences o ids) <$> sales_of (product (db w)) o /\
    sales_of (product (db w2)) o =
      (fun s => s + 2 * occurrences o ids) <$> sales_of (product (db w)) o.
Proof.
  intros Hp Hids w1 w2.
  destruct (deliver_settles p ids w Hp Hids) as [Hr1 Hs1].
  pose proof (deliver_purchases p w Hp) as Hu1.
  destruct (find_update_first_frame
              (db_purchase.has_transaction_id (event_object_id event))
              (db_purchase.has_id (pur_id p)) (set_payment_status paid)
              (purchase (db w)) p (fun _ => eq_refl) Hp) as (p' & Hp' & Hpp).
  rewrite <- Hu1 in Hp'. fold w1 in Hp', Hu1, Hs1.
  assert (pur_id p' = pur_id p /\ items p' = items p) as [Hid Hit]
    by (destruct Hpp as [-> | ->]; done).
  rewrite <- Hit in Hids.
  destruct (deliver_settles p' ids w1 Hp' Hids) as [Hr2 Hs2].
  pose proof (deliver_purchases p' w1 Hp') as Hu2.
  fold w2 in Hu2, Hs2.
  split; [exact Hr1|]. split; [exact Hr2|]. split.
  - rewrite Hu2, Hid, Hu1. by apply update_first_idem.
  - intros o. rewrite Hs2, Hs1, !sales_of_sold. split; [done|].
    destruct (sales_of (product (db w)) o); simpl; [f_equal; lia | done].
Qed.

End Delivery.

(** ** Checkout, step by step *)


Lemma pure_ret {A} (a : A) : pure (mret a).
Proof. by exists (Return a). Qed.

Lemma pure_raise {A} (e : Exn) : pure (@raise A e).
Proof. by exists (Raise e). Qed.

Lemma pure_from_option {A} (e : Exn) (x : option A) : pure (from_option e x).
Proof. destruct x; [apply pure_ret | apply pure_raise]. Qed.

Lemma pure_bind {A B} (m : M A) (k : A -> M B) :
  pure m -> (forall a, pure (k a)) -> pure (m ≫= k).
Proof.
  intros [[a | e] Hm] Hk.
  - destruct (Hk a) as [r Hr]. exists r. intros w. by rewrite bind_run, Hm.
  - exists (Raise e). intros w. by rewrite bind_run, Hm.
Qed.

Lemma pure_for_fold {A S} (l : list A) (body : S -> A -> M S) (s : S) :
  (forall s x, pure (body s x)) -> pure (for_fold l body s).
Proof.
  intros Hb. revert s. induction l as [| x l IH]; intros s; [apply pure_ret|].
  apply pure_bind; [apply Hb | apply IH].
Qed.

Lemma checkout_line_pure (m : gmap string Z) (s : float * list LineItem) (d : Product) :
  pure (checkout_line m s d).
Proof.
  destruct s as [total lines]. unfold checkout_line, mul_int, int.
  repeat first [ apply pure_bind; [| intros ?] | apply pure_from_option | apply pure_ret ].
Qed.

(** The loop over [docs] computes on local variables only. *)
Lemma checkout_lines_pure (m : gmap string Z) (docs : list Product)
    (s : float * list LineItem) :
  pure (for_fold docs (checkout_line m) s).
Proof. apply pure_for_fold. intros. apply checkout_line_pure. Qed.

Lemma resolved_find_in (ps : list Product) (its : list CheckoutItem) (ks : list Parsed) :
  parse_ids its = Some ks ->
  filter (fun p => Whole (prod_id p) ∈ ks) ps = resolved ps its.
Proof.
  intros H. unfold resolved. apply list_filter_iff. intros p.
  by rewrite (parse_ids_elem _ _ _ H).
Qed.

Section Checkout.
Variable stripe : Stripe.
Variables (req : CheckoutRequest) (new_id : ObjectId) (w : World).

Local Abbreviation docs := (resolved (product (db w)) (req_items req)).


(** Up to the insertion: when [ObjectId] reads the ids, some product is
    found and the loop returns, the handler continues from a world with
    the new purchase appended. *)
Lemma create_checkout_run (ks : list Parsed) (d0 : Product) (rest : list Product)
    (total : float) (lines : list LineItem) :
  parse_ids (req_items req) = Some ks ->
  docs = d0 :: rest ->
  (forall w', for_fold docs (checkout_line (id_to_qty (req_items req))) (0%float, []) w' =
                (Return (total, lines), w')) ->
  create_checkout stripe req new_id w =
    (if bool_decide (req_provider req = "stripe") && negb (Py.falsy (api_key stripe))
     then
       match Session_create stripe
               (mkSessionParams (req_buyer_email req) lines
                  ("https://example.com/success?purchase_id=" +:+ str new_id)
                  ("https://example.com/cancel?purchase_id=" +:+ str new_id)) with
       | inl e => raise (StripeError e)
       | inr session =>
           o ← oid (str new_id);
           db_purchase.update_one_set o (set_transaction_id (session_id session));;
           mret (StripeCheckout (session_id session) (session_url session))
       end
     else
       o ← oid (str new_id);
       db_purchase.update_one_set o
         (fun p => set_transaction_id "demo_txn" (set_payment_status paid p));;
       for_each docs (fun d => db_product.update_one_inc_sales (Whole (prod_id d)));;
       mret (DemoCheckout (req_provider req) (str new_id)))
      (mkWorld (set_purchase (db w) (purchase (db w) ++ [inserted req new_id docs d0 total]))
               ((calls w ++ [Find "product"]) ++ [InsertOne "purchase"])).
Proof.
  intros Hids Hdocs Hloop. unfold create_checkout.
  rewrite bind_run, for_list_oid, Hids.
  rewrite bind_run, find_in_run, (resolved_find_in _ _ _ Hids).
  unfold inserted. rewrite Hdocs in Hloop |- *.
  rewrite bind_run, Hloop.
  rewrite bind_run. unfold create_document_purchase, call. reflexivity.
Qed.

End Checkout.

Lemma redelivery_counts_sales_again_witness :
  let w := Demo.shop_with pending in
  let w1 := snd (Demo.deliver w) in
  let w2 := snd (Demo.deliver w1) in
  fst (Demo.deliver w) = Return Received /\
  fst (Demo.deliver w1) = Return Received /\
  purchase (db w2) = purchase (db w1) /\
  forall o,
    sales_of (product (db w1)) o =
      (fun s => s + occurrences o [Demo.P1]) <$> sales_of (product (db w)) o /\
    sales_of (product (db w2)) o =
      (fun s => s + 2 * occurrences o [Demo.P1]) <$> sales_of (product (db w)) o.
Proof.
  apply redelivery_counts_sales_again
    with (event := mkEvent Demo.completed (Some "cs_test_1")) (p := Demo.order pending);
    [discriminate | reflexivity | reflexivity | reflexivity | reflexivity].
Defined.

(** C1, as stated, fails: a pending purchase of [P1] (never sold) is
    settled by one delivery, which counts one sale; the same delivery
    again counts a second sale, so the state after the second delivery is
    not the state after the first. *)
Lemma redelivery_is_not_idempotent :
  let w := Demo.shop_with pending in
  let w1 := snd (Demo.deliver w) in
  let w2 := snd (Demo.deliver w1) in
  sales_of (product (db w)) Demo.P1 = Some 0 /\
  sales_of (product (db w1)) Demo.P1 = Some 1 /\
  sales_of (product (db w2)) Demo.P1 = Some 2 /\
  db w2 <> db w1.
Proof.
  vm_compute. repeat split; discriminate.
Qed.

(** ** Settlement counts one sale per line *)

Lemma create_checkout_returns (stripe : Stripe) (req : CheckoutRequest)
    (new_id : ObjectId) (w w' : World) (r : Response) :
  create_checkout stripe req new_id w = (Return r, w') ->
  exists (ids : list Parsed) d0 rest total lines,
    parse_ids (req_items req) = Some ids /\
    resolved (product (db w)) (req_items req) = d0 :: rest /\
    forall w0, for_fold (resolved (product (db w)) (req_items req))
                 (checkout_line (id_to_qty (req_items req))) (0%float, []) w0 =
               (Return (total, lines), w0).
Proof.
  intros H. unfold create_checkout in H.
  rewrite bind_run, for_list_oid in H.
  destruct (parse_ids (req_items req)) as [ids|] eqn:Hids; [|done].
  rewrite bind_run, find_in_run, (resolved_find_in _ _ _ Hids) in H.
  destruct (resolved (product (db w)) (req_items req)) as [| d0 rest] eqn:Hdocs; [done|].
  destruct (checkout_lines_pure (id_to_qty (req_items req)) (d0 :: rest) (0%float, []))
    as [[[total lines] | e] Hr].
  - exists ids, d0, rest, total, lines. done.
  - rewrite bind_run, Hr in H. done.
Qed.

(** C2, as the code has it. When a purchase reaches [paid], each of its
    line items adds one to its product's [stats.sales], whatever the
    quantity: on the fallback path one for every product found for the
    cart, on an authentic completed event one for every line item of the
    purchase (whose product ids are well-formed). *)
Theorem settlement_counts_one_sale_per_line :
  (forall stripe req new_id w w' provider purchase_id,
      create_checkout stripe req new_id w =
        (Return (DemoCheckout provider purchase_id), w') ->
      forall o,
        sales_of (product (db w')) o =
          (fun s => s + occurrences o (prod_id <$> resolved (product (db w)) (req_items req)))
            <$> sales_of (product (db w)) o) /\
  (forall stripe secret payload sig_header event p ids w,
      secret <> "" ->
      construct_event stripe payload sig_header secret = inr event ->
      event_type event = "checkout.session.completed" ->
      List.find (db_purchase.has_transaction_id (event_object_id event))
                (purchase (db w)) = Some p ->
      item_ids (items p) = Some ids ->
      forall o,
        sales_of (product (db (snd (stripe_webhook stripe secret payload sig_header w)))) o =
          (fun s => s + occurrences o ids) <$> sales_of (product (db w)) o).
Proof.
  split.
  - intros stripe req new_id w w' provider purchase_id H o.
    destruct (create_checkout_returns _ _ _ _ _ _ H)
      as (ids & d0 & rest & total & lines & Hids & Hdocs & Hloop).
    rewrite (create_checkout_run stripe req new_id w ids d0 rest total lines
               Hids Hdocs Hloop) in H.
    destruct (bool_decide (req_provider req = "stripe") && negb (Py.falsy (api_key stripe))).
    + destruct (Session_create stripe _) as [e | session]; [done|].
      rewrite bind_run, oid_str, bind_run, update_one_set_run in H.
      done.
    + rewrite bind_run, oid_str, bind_run, update_one_set_run in H.
      rewrite bind_run in H.
      match type of H with
      | context [for_each ?l ?b ?w1] =>
          destruct (settle_docs_run l w1) as (w2 & Hrun & Hprod & _)
      end.
      rewrite Hrun in H. injection H as _ _ <-.
      rewrite Hprod. cbn [db product set_purchase set_product]. apply sales_of_sold.
  - intros stripe secret payload sig_header event p ids w Hs He Ht Hp Hids o.
    destruct (deliver_settles stripe secret payload sig_header event Hs He Ht p ids w Hp Hids)
      as [_ ->].
    apply sales_of_sold.
Qed.

Lemma settlement_counts_one_sale_per_line_witness :
  (forall o,
      sales_of (product (db (snd (create_checkout Demo.no_stripe
                  (Demo.cart [(str Demo.P1, 2)] "stripe") Demo.N1 Demo.shop)))) o =
        (fun s => s + occurrences o [Demo.P1]) <$> sales_of Demo.catalog o) /\
  (forall o,
      sales_of (product (db (snd (Demo.deliver (Demo.shop_with pending))))) o =
        (fun s => s + occurrences o [Demo.P1]) <$> sales_of Demo.catalog o).
Proof.
  destruct settlement_counts_one_sale_per_line as [Hdemo Hhook]. split.
  - apply (Hdemo Demo.no_stripe (Demo.cart [(str Demo.P1, 2)] "stripe") Demo.N1 Demo.shop
             _ "stripe" (str Demo.N1)).
    reflexivity.
  - apply (Hhook Demo.stripe Demo.secret "cs_test_1" (Some Demo.secret)
             (mkEvent Demo.completed (Some "cs_test_1")) (Demo.order pending) [Demo.P1]
             (Demo.shop_with pending));
      [discriminate | reflexivity | reflexivity | reflexivity | reflexivity].
Defined.

(** C2, as stated, fails: scenario A of the specification. A cart of
    [P1] (priced 10.00, never sold) with quantity 2 on the fallback path
    yields a [paid] purchase of 20.00, and [P1]'s sales go from 0 to 1,
    not to 2. *)
Lemma quantity_two_counts_one_sale :
  let w' := snd (create_checkout Demo.no_stripe
                   (Demo.cart [(str Demo.P1, 2)] "stripe") Demo.N1 Demo.shop) in
  (payment_status <$> purchase (db w')) = [paid] /\
  (total_amount <$> purchase (db w')) = [20%float] /\
  sales_of (product (db Demo.shop)) Demo.P1 = Some 0 /\
  sales_of (product (db w')) Demo.P1 = Some 1.
Proof.
  vm_compute. repeat split.
Qed.

(** ** Statuses and snapshots over any sequence of requests *)

Lemma find_update_first_same {A} (P : A -> bool) (f : A -> A) (l : list A) :
  (forall x, P (f x) = P x) ->
  List.find P (update_first P f l) = f <$> List.find P l.
Proof.
  intros HP. induction l as [| x l IH]; [done|]. simpl.
  destruct (P x) eqn:E; simpl.
  - by rewrite HP, E.
  - by rewrite E.
Qed.

Lemma find_is_Some {A} (P : A -> bool) (l : list A) (x : A) :
  In x l -> P x = true -> is_Some (List.find P l).
Proof.
  induction l as [| y l IH]; [done|]. simpl.
  intros [-> | Hin] Hx.
  - rewrite Hx. eauto.
  - destruct (P y); [eauto | by apply IH].
Qed.

(** C3, as the code has it. Over every sequence of requests a
    purchase stays in place, and its [payment_status] either stays as it
    is or becomes [paid]; a purchase a handler creates is [pending] or
    [paid]. So no handler ever writes [failed] or [refunded]. No
    transition is rejected either: an authentic completed event sets the
    purchase it refers to to [paid] whatever its status was. *)
Theorem status_only_ever_becomes_paid (stripe : Stripe) (secret : string) :
  (forall rs w i p,
      purchase (db w) !! i = Some p ->
      exists p',
        purchase (db (serve stripe secret rs w)) !! i = Some p' /\
        pur_id p' = pur_id p /\
        (payment_status p' = payment_status p \/ payment_status p' = paid)) /\
  (forall rs w i p',
      purchase (db w) !! i = None ->
      purchase (db (serve stripe secret rs w)) !! i = Some p' ->
      payment_status p' = pending \/ payment_status p' = paid) /\
  (forall payload sig_header event p w,
      secret <> "" ->
      construct_event stripe payload sig_header secret = inr event ->
      event_type event = "checkout.session.completed" ->
      List.find (db_purchase.has_transaction_id (event_object_id event))
                (purchase (db w)) = Some p ->
      exists p',
        List.find (db_purchase.has_id (pur_id p))
                  (purchase (db (snd (stripe_webhook stripe secret payload sig_header w)))) =
          Some p' /\
        payment_status p' = paid).
Proof.
  split; [| split].
  - intros rs w i p Hi.
    destruct (later_lookup _ _ i p (serve_purchases stripe secret rs w) Hi)
      as (p' & Hp' & Hid & _ & _ & Hs).
    eauto.
  - intros rs w i p' Hnone Hsome.
    destruct (serve_purchases stripe secret rs w) as (l1 & l2 & E & H12 & Hc).
    rewrite E in Hsome. apply lookup_ge_None in Hnone.
    rewrite (Forall2_length _ _ _ H12) in Hnone.
    rewrite lookup_app_r in Hsome by done.
    rewrite Forall_forall in Hc. apply Hc.
    by eapply list_elem_of_lookup_2.
  - intros payload sig_header event p w Hs He Ht Hp.
    rewrite (deliver_purchases stripe secret payload sig_header event Hs He Ht p w Hp).
    rewrite find_update_first_same by done.
    apply find_some in Hp as [Hin _].
    destruct (find_is_Some (db_purchase.has_id (pur_id p)) _ p Hin) as [q Hq].
    { by apply bool_decide_eq_true. }
    rewrite Hq. exists (set_payment_status paid q). done.
Qed.

Lemma status_only_ever_becomes_paid_witness :
  (exists p',
      purchase (db (serve Demo.stripe Demo.secret
                      [StripeWebhook "cs_test_1" (Some Demo.secret)]
                      (Demo.shop_with pending))) !! 0%nat = Some p' /\
      pur_id p' = pur_id (Demo.order pending) /\
      (payment_status p' = payment_status (Demo.order pending) \/
       payment_status p' = paid)) /\
  (exists p',
      List.find (db_purchase.has_id (pur_id (Demo.order refunded)))
                (purchase (db (snd (Demo.deliver (Demo.shop_with refunded))))) = Some p' /\
      payment_status p' = paid).
Proof.
  destruct (status_only_ever_becomes_paid Demo.stripe Demo.secret) as (Hstay & _ & Hpaid).
  split.
  - apply Hstay. reflexivity.
  - apply (Hpaid "cs_test_1" (Some Demo.secret) (mkEvent Demo.completed (Some "cs_test_1")));
      [discriminate | reflexivity | reflexivity | reflexivity].
Defined.

(** C3, as stated, fails: a late authentic completed event for a
    purchase that is [refunded], or [failed], is not rejected; it sets the
    purchase to [paid]. *)
Lemma late_event_overrides_refunded_and_failed :
  (payment_status <$> purchase (db (Demo.shop_with refunded))) = [refunded] /\
  (payment_status <$> purchase (db (snd (Demo.deliver (Demo.shop_with refunded))))) = [paid] /\
  (payment_status <$> purchase (db (Demo.shop_with failed))) = [failed] /\
  (payment_status <$> purchase (db (snd (Demo.deliver (Demo.shop_with failed))))) = [paid].
Proof.
  vm_compute. repeat split.
Qed.

(** C8. A purchase's line-item snapshots and [total_amount] are fixed
    once it is stored: [update_product] leaves the purchase collection as
    it is, and over every sequence of requests (product updates and
    deletions, checkouts, webhook deliveries) every purchase stays in
    place with the same identity, the same [items] (so the same recorded
    prices) and the same [total_amount]. *)
Theorem purchase_snapshot_is_immutable :
  (forall product_id data w,
      purchase (db (snd (update_product product_id data w))) = purchase (db w)) /\
  (forall stripe secret rs w i p,
      purchase (db w) !! i = Some p ->
      exists p',
        purchase (db (serve stripe secret rs w)) !! i = Some p' /\
        pur_id p' = pur_id p /\
        items p' = items p /\
        total_amount p' = total_amount p).
Proof.
  split.
  - intros product_id data w. apply update_product_purchases.
  - intros stripe secret rs w i p Hi.
    destruct (later_lookup _ _ i p (serve_purchases stripe secret rs w) Hi)
      as (p' & Hp' & Hid & Hit & Htot & _).
    eauto.
Qed.

Lemma purchase_snapshot_is_immutable_witness :
  exists p',
    purchase (db (serve Demo.stripe Demo.secret
                    [UpdateProduct (str Demo.P1) (Demo.book 99);
                     StripeWebhook "cs_test_1" (Some Demo.secret)]
                    (Demo.shop_with pending))) !! 0%nat = Some p' /\
    pur_id p' = pur_id (Demo.order pending) /\
    items p' = items (Demo.order pending) /\
    total_amount p' = total_amount (Demo.order pending).
Proof.
  apply (proj2 purchase_snapshot_is_immutable). reflexivity.
Defined.

(** ** The checkout loop *)

Lemma from_option_run {A} (e : Exn) (x : option A) (w : World) :
  from_option e x w = (match x with Some a => Return a | None => Raise e end, w).
Proof. by destruct x. Qed.






(** ** The quantity the loop reads for a product *)







(** ** The total of a checkout *)










(** A product id of 24 characters with whitespace between the bytes is
    read as a shorter object, resolves to nothing and is dropped: beside
    [P1] the cart is served, and alone it is answered ["No valid items"]. *)
Example checkout_drops_short_id :
  let run := fun its => create_checkout Demo.stripe (Demo.cart its "stripe") Demo.N1 Demo.shop in
  fst (run [(str Demo.P1, 2); (Demo.spaced, 1)]) =
    Return (StripeCheckout "cs_test_1" "https://checkout.stripe.com/c/pay/cs_test_1") /\
  ((fun p => (payment_status p, total_amount p))
     <$> purchase (db (snd (run [(str Demo.P1, 2); (Demo.spaced, 1)])))) =
    [(pending, 20%float)] /\
  run [(Demo.spaced, 1)] =
    (Raise (HTTPException 400 "No valid items"),
     mkWorld (db Demo.shop) [Find "product"]).
Proof. vm_compute. repeat split. Qed.

(** ** A quantity of zero *)






(** ** Ids in requests *)

Lemma lower_ascii_idem (c : ascii) : lower_ascii (lower_ascii c) = lower_ascii c.
Proof.
  assert (forall d, lower_ascii d =
            if ((65 <=? N_of_ascii d)%N && (N_of_ascii d <=? 90)%N)
            then ascii_of_N (N_of_ascii d + 32) else d) as Hdef by done.
  rewrite (Hdef c).
  destruct ((65 <=? N_of_ascii c)%N && (N_of_ascii c <=? 90)%N) eqn:E; [|by rewrite Hdef, E].
  apply andb_true_iff in E as [E1 E2]. apply N.leb_le in E1, E2.
  rewrite Hdef, N_ascii_embedding by lia.
  destruct ((65 <=? N_of_ascii c + 32)%N && (N_of_ascii c + 32 <=? 90)%N) eqn:E'; [|done].
  apply andb_true_iff in E' as [_ E']. apply N.leb_le in E'. lia.
Qed.

Lemma is_space_lower (c : ascii) : is_space (lower_ascii c) = is_space c.
Proof.
  by destruct c as [[] [] [] [] [] [] [] []].
Qed.

(** [bytes.fromhex] does not tell the case of the digits. *)
Lemma fromhex_lower (n : nat) (s : string) :
  (String.length s <= n)%nat -> fromhex (lower s) = fromhex s.
Proof.
  revert s. induction n as [| n IH]; intros s Hn.
  - destruct s; [done | simpl in Hn; lia].
  - destruct s as [| c s]; [done|]. cbn [lower fromhex]. simpl in Hn.
    rewrite is_space_lower. destruct (is_space c); [apply IH; lia|].
    destruct s as [| c' s]; [done|]. cbn [lower]. simpl in Hn.
    unfold is_hex. rewrite !lower_ascii_idem, (IH s) by lia. done.
Qed.

Lemma ObjectId_parse_lower (s : string) : ObjectId_parse (lower s) = ObjectId_parse s.
Proof.
  unfold ObjectId_parse.
  by rewrite length_lower, (fromhex_lower _ s (Nat.le_refl _)).
Qed.

(** X1. [oid] gives back every id from its printed form, does not tell
    the case of hex digits, and leaves the world alone. It answers 400
    ["Invalid id"] exactly to the strings that have not 24 characters or
    that [bytes.fromhex] refuses. To every other string it returns what
    [ObjectId] reads: for 24 hex digits the id they denote, and otherwise
    (24 characters with whitespace before some byte) an object of fewer
    than twelve bytes. *)
Theorem oid_reads_printed_ids (s : string) (w : World) :
  (forall o, oid (str o) w = (Return (Whole o), w)) /\
  oid (lower s) w = oid s w /\
  (oid s w = (Raise (HTTPException 400 "Invalid id"), w) <->
   String.length s <> 24%nat \/ fromhex s = None) /\
  (forall o, oid s w = (Return (Whole o), w) <->
     is_oid_hex (lower s) = true /\ str o = lower s) /\
  (forall h, oid s w = (Return (Short h), w) <->
     String.length s = 24%nat /\ fromhex s = Some h /\ (String.length h < 24)%nat) /\
  snd (oid s w) = w.
Proof.
  split; [| split; [| split; [| split; [| split]]]].
  - intros o. apply oid_str.
  - by rewrite !oid_run, ObjectId_parse_lower.
  - rewrite oid_run. unfold ObjectId_parse.
    destruct (String.length s =? 24)%nat eqn:Hl.
    + apply Nat.eqb_eq in Hl.
      destruct (fromhex s) as [h|]; cbn [mbind option_bind].
      * split; [done|]. intros [? | ?]; done.
      * split; [by right | done].
    + apply Nat.eqb_neq in Hl. split; [by left | done].
  - intros o. rewrite oid_run. split.
    + intros H.
      assert (ObjectId_of_str s = Some o) as Ho.
      { apply ObjectId_parse_Whole. by destruct (ObjectId_parse s); simplify_eq. }
      split; [| by apply str_ObjectId_of_str].
      rewrite ObjectId_of_str_spec in Ho.
      destruct (decide (Is_true (is_oid_hex (lower s)))) as [Hv |]; [|done].
      by apply Is_true_true_1.
    + intros [Hv Hs].
      assert (ObjectId_of_str s = Some o) as Ho.
      { rewrite ObjectId_of_str_spec.
        destruct (decide (Is_true (is_oid_hex (lower s)))) as [Hv' | Hv'].
        - f_equal. by apply ObjectId_eq.
        - by apply Is_true_true_2 in Hv. }
      apply ObjectId_parse_Whole in Ho. by rewrite Ho.
  - intros h. rewrite oid_run. unfold ObjectId_parse.
    destruct (String.length s =? 24)%nat eqn:Hl.
    + apply Nat.eqb_eq in Hl.
      destruct (fromhex s) as [h'|] eqn:Hs; cbn [mbind option_bind].
      * destruct (fromhex_hex _ s h' (Nat.le_refl _) Hs) as (Hle & Hhex & _).
        destruct (decide (Is_true (is_oid_hex h'))) as [Hv | Hv].
        -- split; [done|]. intros (_ & [= ->] & Hlt).
           pose proof (Is_true_true_1 _ Hv) as [Hlen _]%andb_true_iff.
           apply Nat.eqb_eq in Hlen. lia.
        -- split.
           ++ intros [= ->]. split; [done|]. split; [done|].
              destruct (decide (String.length h = 24)%nat) as [E |]; [|lia].
              exfalso. apply Hv, Is_true_true_2, andb_true_iff.
              split; [by apply Nat.eqb_eq | done].
           ++ by intros (_ & [= ->] & _).
      * split; [done|]. by intros (_ & ? & _).
    + apply Nat.eqb_neq in Hl. split; [done|]. by intros (? & _).
  - rewrite oid_run. done.
Qed.

(** ** The catalog handlers *)

Lemma update_first_none {A} (P : A -> bool) (f : A -> A) (l : list A) :
  List.find P l = None -> update_first P f l = l.
Proof.
  induction l as [| x l IH]; [done|]. simpl.
  destruct (P x); [done|]. intros H. by rewrite IH.
Qed.

Lemma remove_first_none {A} (P : A -> bool) (l : list A) :
  List.find P l = None -> remove_first P l = l.
Proof.
  induction l as [| x l IH]; [done|]. simpl.
  destruct (P x); [done|]. intros H. by rewrite IH.
Qed.

Lemma find_snoc {A} (P : A -> bool) (l : list A) (x : A) :
  List.find P (l ++ [x]) =
  match List.find P l with
  | Some y => Some y
  | None => if P x then Some x else None
  end.
Proof.
  induction l as [| y l IH]; simpl; [done|]. by destruct (P y).
Qed.

Lemma resolves_doc_of (ps : list Product) (s : string) (o : ObjectId) :
  ObjectId_of_str s = Some o ->
  resolves ps s = false -> doc_of ps o = None.
Proof.
  intros Ho Hr. unfold resolves in Hr. rewrite Ho in Hr.
  apply bool_decide_eq_false in Hr.
  apply find_none_Forall, Forall_forall. intros p Hp.
  apply has_id_false. intros E. apply Hr, list_elem_of_fmap. eauto.
Qed.

Lemma find_one_run (o : ObjectId) (w : World) :
  db_product.find_one (Whole o) w =
  (Return (doc_of (product (db w)) o), mkWorld (db w) (calls w ++ [FindOne "product"])).
Proof. reflexivity. Qed.

(** What [ObjectId] reads of an id that resolves to nothing matches no
    product. *)
Lemma resolves_has_key (ps : list Product) (s : string) (k : Parsed) :
  ObjectId_parse s = Some k ->
  resolves ps s = false -> List.find (has_key k) ps = None.
Proof.
  intros Hk Hr. destruct k as [o | h]; [| apply find_never].
  apply ObjectId_parse_Whole in Hk. by apply (resolves_doc_of _ s).
Qed.

(** X2. [get_product] for an id that no product has: an id that
    [ObjectId] refuses is answered 400 without any driver call, every
    other one 404 after the one lookup; in both cases no collection
    changes (no view is counted). *)
Theorem get_product_unknown_id (product_id : string) (w : World) :
  resolves (product (db w)) product_id = false ->
  get_product product_id w =
    match ObjectId_parse product_id with
    | None => (Raise (HTTPException 400 "Invalid id"), w)
    | Some _ => (Raise (HTTPException 404 "Product not found"),
                 mkWorld (db w) (calls w ++ [FindOne "product"]))
    end.
Proof.
  intros Hr. unfold get_product. rewrite bind_run, oid_run.
  destruct (ObjectId_parse product_id) as [k|] eqn:Hk; [|done].
  rewrite bind_run. unfold db_product.find_one, call.
  by rewrite (resolves_has_key _ _ _ Hk Hr).
Qed.

Lemma get_product_unknown_id_witness :
  get_product (str Demo.P2) Demo.shop =
    (Raise (HTTPException 404 "Product not found"),
     mkWorld (db Demo.shop) (calls Demo.shop ++ [FindOne "product"])) /\
  get_product Demo.spaced Demo.shop =
    (Raise (HTTPException 404 "Product not found"),
     mkWorld (db Demo.shop) (calls Demo.shop ++ [FindOne "product"])) /\
  get_product "p-1" Demo.shop = (Raise (HTTPException 400 "Invalid id"), Demo.shop).
Proof.
  split; [| split].
  - apply (get_product_unknown_id (str Demo.P2) Demo.shop). reflexivity.
  - apply (get_product_unknown_id Demo.spaced Demo.shop). reflexivity.
  - apply (get_product_unknown_id "p-1" Demo.shop). reflexivity.
Defined.

Lemma doc_of_update_first (f : Product -> Product) (i o : ObjectId) (ps : list Product) :
  (forall p, prod_id (f p) = prod_id p) ->
  doc_of (update_first (has_id i) f ps) o =
  (if decide (i = o) then f else id) <$> doc_of ps o.
Proof. apply find_update_first_id. Qed.

Lemma doc_of_id (ps : list Product) (o : ObjectId) (d : Product) :
  doc_of ps o = Some d -> prod_id d = o.
Proof.
  intros H. apply find_some in H as [_ H]. by apply bool_decide_eq_true in H.
Qed.

(** X3. [get_product] for an id some product has: the response is the
    document as it was found, so it shows the view count before this view;
    afterwards that product's [stats.views] is one more, every other
    product's views and everybody's sales are as before, and the purchases
    are untouched. *)
Theorem get_product_counts_one_view
    (product_id : string) (o : ObjectId) (d : Product) (w : World) :
  ObjectId_of_str product_id = Some o ->
  doc_of (product (db w)) o = Some d ->
  let w' := snd (get_product product_id w) in
  fst (get_product product_id w) = Return (ProductOut d) /\
  (forall o', views_of (product (db w')) o' =
     (fun v => v + (if decide (o = o') then 1 else 0)) <$> views_of (product (db w)) o') /\
  (forall o', sales_of (product (db w')) o' = sales_of (product (db w)) o') /\
  purchase (db w') = purchase (db w).
Proof.
  intros Ho Hd w'. subst w'. unfold get_product.
  rewrite bind_run, (oid_Whole _ _ _ Ho), bind_run, find_one_run, Hd.
  rewrite bind_run. unfold db_product.update_one_inc_views, call, mret, M_ret.
  cbn [fst snd db calls has_key]. rewrite (doc_of_id _ _ _ Hd).
  split; [done|]. split; [| split; [| done]].
  - intros o'. unfold views_of, doc_of. cbn [product set_product].
    rewrite find_update_first_id by done.
    destruct (List.find (has_id o') (product (db w))) as [p|]; [|done]. simpl.
    destruct (decide (o = o')); simpl; f_equal; lia.
  - intros o'. unfold sales_of. cbn [product set_product].
    rewrite find_update_first_id by done.
    destruct (List.find (has_id o') (product (db w))) as [p|]; [|done]. simpl.
    by destruct (decide (o = o')).
Qed.

Lemma get_product_counts_one_view_witness :
  let w' := snd (get_product (str Demo.P1) Demo.shop2) in
  fst (get_product (str Demo.P1) Demo.shop2) =
    Return (ProductOut (mkProduct Demo.P1 (Demo.book 10) "active" (mkStats 0 0))) /\
  (forall o', views_of (product (db w')) o' =
     (fun v => v + (if decide (Demo.P1 = o') then 1 else 0))
       <$> views_of (product (db Demo.shop2)) o') /\
  (forall o', sales_of (product (db w')) o' = sales_of (product (db Demo.shop2)) o') /\
  purchase (db w') = purchase (db Demo.shop2).
Proof.
  apply (get_product_counts_one_view (str Demo.P1) Demo.P1
           (mkProduct Demo.P1 (Demo.book 10) "active" (mkStats 0 0)) Demo.shop2);
    reflexivity.
Defined.

Lemma create_document_auditlog_run (a : AuditLog) (w : World) :
  create_document_auditlog a w =
  (Return tt,
   mkWorld (mkDB (product (db w)) (purchase (db w)) (auditlog (db w) ++ [a])%list)
           (calls w ++ [InsertOne "auditlog"])).
Proof. reflexivity. Qed.

Lemma get_product_found (product_id : string) (o : ObjectId) (d : Product) (w : World) :
  ObjectId_of_str product_id = Some o ->
  doc_of (product (db w)) o = Some d ->
  fst (get_product product_id w) = Return (ProductOut d).
Proof.
  intros Ho Hd. unfold get_product.
  by rewrite bind_run, (oid_Whole _ _ _ Ho), bind_run, find_one_run, Hd.
Qed.

Lemma create_product_run (data : ProductIn) (new_id : ObjectId) (w : World) :
  create_product data new_id w =
  (Return (Created (str new_id)),
   mkWorld (mkDB (product (db w) ++ [mkProduct new_id data "active" (mkStats 0 0)])
                 (purchase (db w))
                 (auditlog (db w) ++ [mkAuditLog "create_product" "product" (str new_id)
                                                 [("seller_id", seller_id data)]])%list)
           ((calls w ++ [InsertOne "product"]) ++ [InsertOne "auditlog"])).
Proof. reflexivity. Qed.

(** X4. A product created under an identity no product has yet is
    stored [active] with both counters at 0, and [get_product] on the id
    that [create_product] answered returns exactly it; the products
    already there are as before, one audit record is added, and the
    purchases are untouched. *)
Theorem create_product_then_get (data : ProductIn) (new_id : ObjectId) (w : World) :
  doc_of (product (db w)) new_id = None ->
  let w' := snd (create_product data new_id w) in
  fst (create_product data new_id w) = Return (Created (str new_id)) /\
  fst (get_product (str new_id) w') =
    Return (ProductOut (mkProduct new_id data "active" (mkStats 0 0))) /\
  (forall o, o <> new_id -> doc_of (product (db w')) o = doc_of (product (db w)) o) /\
  auditlog (db w') =
    (auditlog (db w) ++ [mkAuditLog "create_product" "product" (str new_id)
                                   [("seller_id", seller_id data)]])%list /\
  purchase (db w') = purchase (db w).
Proof.
  intros Hfresh w'. subst w'. rewrite create_product_run.
  cbn [fst snd db product purchase auditlog].
  split; [done|]. split; [| split; [| done]].
  - apply (get_product_found _ new_id); [apply ObjectId_of_str_str|].
    unfold doc_of in *. cbn [db product]. rewrite find_snoc, Hfresh.
    by rewrite has_id_true.
  - intros o Ho. unfold doc_of. rewrite find_snoc.
    destruct (List.find (has_id o) (product (db w))); [done|].
    by rewrite has_id_false.
Qed.

Lemma create_product_then_get_witness :
  let w' := snd (create_product (Demo.book 5) Demo.P3 Demo.shop2) in
  fst (create_product (Demo.book 5) Demo.P3 Demo.shop2) = Return (Created (str Demo.P3)) /\
  fst (get_product (str Demo.P3) w') =
    Return (ProductOut (mkProduct Demo.P3 (Demo.book 5) "active" (mkStats 0 0))) /\
  (forall o, o <> Demo.P3 ->
     doc_of (product (db w')) o = doc_of (product (db Demo.shop2)) o) /\
  auditlog (db w') =
    (auditlog (db Demo.shop2) ++ [mkAuditLog "create_product" "product" (str Demo.P3)
                                            [("seller_id", seller_id (Demo.book 5))]])%list /\
  purchase (db w') = purchase (db Demo.shop2).
Proof.
  apply (create_product_then_get (Demo.book 5) Demo.P3 Demo.shop2). reflexivity.
Defined.

Lemma update_one_set_product_run (o : ObjectId) (data : ProductIn) (w : World) :
  db_product.update_one_set (Whole o) data w =
  (Return (matched (has_id o) (product (db w))),
   mkWorld (set_product (db w) (update_first (has_id o) (set_fields data) (product (db w))))
           (calls w ++ [UpdateOne "product"])).
Proof. reflexivity. Qed.

Lemma set_product_same (d : DB) : set_product d (product d) = d.
Proof. by destruct d. Qed.

(** X5. [update_product] for an id that no product has: 400 for an
    id that [ObjectId] refuses, without any driver call, and 404 after the
    one update that matched nothing otherwise; no collection changes and
    no audit record is written. *)
Theorem update_product_unknown_id (product_id : string) (data : ProductIn) (w : World) :
  resolves (product (db w)) product_id = false ->
  update_product product_id data w =
    match ObjectId_parse product_id with
    | None => (Raise (HTTPException 400 "Invalid id"), w)
    | Some _ => (Raise (HTTPException 404 "Product not found"),
                 mkWorld (db w) (calls w ++ [UpdateOne "product"]))
    end.
Proof.
  intros Hr. unfold update_product. rewrite bind_run, oid_run.
  destruct (ObjectId_parse product_id) as [k|] eqn:Hk; [|done].
  pose proof (resolves_has_key _ _ _ Hk Hr) as Hnone.
  rewrite bind_run. unfold db_product.update_one_set, call, matched.
  rewrite Hnone, update_first_none by done. cbn [Z.eqb].
  by rewrite set_product_same.
Qed.

Lemma update_product_unknown_id_witness :
  update_product (str Demo.P2) (Demo.book 3) Demo.shop =
    (Raise (HTTPException 404 "Product not found"),
     mkWorld (db Demo.shop) (calls Demo.shop ++ [UpdateOne "product"])) /\
  update_product Demo.spaced (Demo.book 3) Demo.shop =
    (Raise (HTTPException 404 "Product not found"),
     mkWorld (db Demo.shop) (calls Demo.shop ++ [UpdateOne "product"])) /\
  update_product "p-1" (Demo.book 3) Demo.shop =
    (Raise (HTTPException 400 "Invalid id"), Demo.shop).
Proof.
  split; [| split].
  - apply (update_product_unknown_id (str Demo.P2) (Demo.book 3) Demo.shop). reflexivity.
  - apply (update_product_unknown_id Demo.spaced (Demo.book 3) Demo.shop). reflexivity.
  - apply (update_product_unknown_id "p-1" (Demo.book 3) Demo.shop). reflexivity.
Defined.

(** X6. [update_product] for an id some product has replaces the
    seller's fields of that product and keeps its identity, status and
    counters; a [get_product] that follows returns the product with the
    new fields; every other product and the purchases are as before, and
    one audit record is added. *)
Theorem update_product_replaces_fields
    (product_id : string) (o : ObjectId) (d : Product) (data : ProductIn) (w : World) :
  ObjectId_of_str product_id = Some o ->
  doc_of (product (db w)) o = Some d ->
  let w' := snd (update_product product_id data w) in
  fst (update_product product_id data w) = Return Updated /\
  doc_of (product (db w')) o = Some (mkProduct o data (prod_status d) (prod_stats d)) /\
  fst (get_product product_id w') =
    Return (ProductOut (mkProduct o data (prod_status d) (prod_stats d))) /\
  (forall o', o' <> o -> doc_of (product (db w')) o' = doc_of (product (db w)) o') /\
  auditlog (db w') =
    (auditlog (db w) ++ [mkAuditLog "update_product" "product" product_id []])%list /\
  purchase (db w') = purchase (db w).
Proof.
  intros Ho Hd w'. subst w'. unfold update_product.
  rewrite bind_run, (oid_Whole _ _ _ Ho), bind_run, update_one_set_product_run.
  unfold matched. unfold doc_of in Hd. rewrite Hd. cbn [Z.eqb].
  rewrite bind_run, create_document_auditlog_run. unfold mret, M_ret.
  cbn [fst snd db product purchase auditlog set_product].
  assert (doc_of (update_first (has_id o) (set_fields data) (product (db w))) o =
            Some (mkProduct o data (prod_status d) (prod_stats d))) as Hnew.
  { rewrite doc_of_update_first by done. unfold doc_of. rewrite Hd.
    rewrite decide_True by done. cbn. unfold set_fields.
    by rewrite (doc_of_id _ _ _ Hd). }
  split; [done|]. split; [exact Hnew|]. split; [| split; [| done]].
  - by apply (get_product_found _ o).
  - intros o' Hne. rewrite doc_of_update_first by done.
    rewrite decide_False by done. apply option_fmap_id.
Qed.

Lemma update_product_replaces_fields_witness :
  let w' := snd (update_product (str Demo.P1) (Demo.book 99) Demo.shop2) in
  fst (update_product (str Demo.P1) (Demo.book 99) Demo.shop2) = Return Updated /\
  doc_of (product (db w')) Demo.P1 =
    Some (mkProduct Demo.P1 (Demo.book 99) "active" (mkStats 0 0)) /\
  fst (get_product (str Demo.P1) w') =
    Return (ProductOut (mkProduct Demo.P1 (Demo.book 99) "active" (mkStats 0 0))) /\
  (forall o', o' <> Demo.P1 ->
     doc_of (product (db w')) o' = doc_of (product (db Demo.shop2)) o') /\
  auditlog (db w') =
    (auditlog (db Demo.shop2) ++ [mkAuditLog "update_product" "product" (str Demo.P1) []])%list /\
  purchase (db w') = purchase (db Demo.shop2).
Proof.
  apply (update_product_replaces_fields (str Demo.P1) Demo.P1
           (mkProduct Demo.P1 (Demo.book 10) "active" (mkStats 0 0)) (Demo.book 99)
           Demo.shop2); reflexivity.
Defined.

Lemma delete_one_run (o : ObjectId) (w : World) :
  db_product.delete_one (Whole o) w =
  (Return (matched (has_id o) (product (db w))),
   mkWorld (set_product (db w) (remove_first (has_id o) (product (db w))))
           (calls w ++ [DeleteOne "product"])).
Proof. reflexivity. Qed.

Lemma doc_of_remove_first_ne (o o' : ObjectId) (ps : list Product) :
  o' <> o -> doc_of (remove_first (has_id o) ps) o' = doc_of ps o'.
Proof.
  intros Hne. unfold doc_of. induction ps as [| x ps IH]; [done|]. simpl.
  destruct (has_id o x) eqn:E.
  - apply bool_decide_eq_true in E. rewrite has_id_false by congruence. done.
  - simpl. by rewrite IH.
Qed.

Lemma doc_of_not_elem (o : ObjectId) (ps : list Product) :
  o ∉ prod_id <$> ps -> doc_of ps o = None.
Proof.
  intros H. apply find_none_Forall, Forall_forall. intros p Hp.
  apply has_id_false. intros E. apply H, list_elem_of_fmap. eauto.
Qed.

Lemma doc_of_remove_first_eq (o : ObjectId) (ps : list Product) :
  NoDup (prod_id <$> ps) -> doc_of (remove_first (has_id o) ps) o = None.
Proof.
  induction ps as [| x ps IH]; [done|]. cbn [fmap list_fmap remove_first].
  intros [Hx Hnd]%NoDup_cons.
  destruct (has_id o x) eqn:E.
  - apply bool_decide_eq_true in E. subst o. by apply doc_of_not_elem.
  - unfold doc_of in *. simpl. rewrite E. by apply IH.
Qed.

Lemma length_remove_first {A} (P : A -> bool) (l : list A) (x : A) :
  List.find P l = Some x -> S (length (remove_first P l)) = length l.
Proof.
  induction l as [| y l IH]; [done|]. simpl.
  destruct (P y); [done|]. intros H. simpl. by rewrite IH.
Qed.

(** X7. [delete_product] for an id that no product has is answered
    400 (an id that [ObjectId] refuses, no driver call) or 404 (after the
    one delete that matched nothing) and changes nothing. For an id some
    product has, in a catalog whose ids are distinct, it removes that one
    product:
    the id resolves to nothing afterwards, so [get_product] answers 404;
    every other product is as before, the purchases are untouched (their
    snapshots of the deleted product stay), and one audit record is
    added. *)
Theorem delete_product_removes_one (product_id : string) (w : World) :
  (resolves (product (db w)) product_id = false ->
   delete_product product_id w =
     match ObjectId_parse product_id with
     | None => (Raise (HTTPException 400 "Invalid id"), w)
     | Some _ => (Raise (HTTPException 404 "Product not found"),
                  mkWorld (db w) (calls w ++ [DeleteOne "product"]))
     end) /\
  (forall o d,
     ObjectId_of_str product_id = Some o ->
     doc_of (product (db w)) o = Some d ->
     NoDup (prod_id <$> product (db w)) ->
     let w' := snd (delete_product product_id w) in
     fst (delete_product product_id w) = Return Deleted /\
     doc_of (product (db w')) o = None /\
     fst (get_product product_id w') = Raise (HTTPException 404 "Product not found") /\
     S (length (product (db w'))) = length (product (db w)) /\
     (forall o', o' <> o -> doc_of (product (db w')) o' = doc_of (product (db w)) o') /\
     auditlog (db w') =
       (auditlog (db w) ++ [mkAuditLog "delete_product" "product" product_id []])%list /\
     purchase (db w') = purchase (db w)).
Proof.
  split.
  - intros Hr. unfold delete_product. rewrite bind_run, oid_run.
    destruct (ObjectId_parse product_id) as [k|] eqn:Hk; [|done].
    pose proof (resolves_has_key _ _ _ Hk Hr) as Hnone.
    rewrite bind_run. unfold db_product.delete_one, call, matched.
    rewrite Hnone, remove_first_none by done. cbn [Z.eqb].
    by rewrite set_product_same.
  - intros o d Ho Hd Hnd w'. subst w'. unfold delete_product.
    rewrite bind_run, (oid_Whole _ _ _ Ho), bind_run, delete_one_run.
    unfold matched. pose proof Hd as Hd'. unfold doc_of in Hd'. rewrite Hd'. cbn [Z.eqb].
    rewrite bind_run, create_document_auditlog_run. unfold mret, M_ret.
    cbn [fst snd db product purchase auditlog set_product].
    pose proof (doc_of_remove_first_eq o _ Hnd) as Hgone.
    split; [done|]. split; [exact Hgone|].
    split; [| split; [| split; [| done]]].
    + unfold get_product.
      rewrite bind_run, (oid_Whole _ _ _ Ho), bind_run, find_one_run. cbn [db product].
      by rewrite Hgone.
    + by apply (length_remove_first _ _ d).
    + intros o' Hne. by apply doc_of_remove_first_ne.
Qed.

Lemma delete_product_removes_one_witness :
  delete_product (str Demo.P3) Demo.shop2 =
    (Raise (HTTPException 404 "Product not found"),
     mkWorld (db Demo.shop2) (calls Demo.shop2 ++ [DeleteOne "product"])) /\
  delete_product Demo.spaced Demo.shop2 =
    (Raise (HTTPException 404 "Product not found"),
     mkWorld (db Demo.shop2) (calls Demo.shop2 ++ [DeleteOne "product"])) /\
  (let w' := snd (delete_product (str Demo.P1) Demo.shop2) in
   fst (delete_product (str Demo.P1) Demo.shop2) = Return Deleted /\
   doc_of (product (db w')) Demo.P1 = None /\
   fst (get_product (str Demo.P1) w') = Raise (HTTPException 404 "Product not found") /\
   S (length (product (db w'))) = length (product (db Demo.shop2)) /\
   (forall o', o' <> Demo.P1 ->
      doc_of (product (db w')) o' = doc_of (product (db Demo.shop2)) o') /\
   auditlog (db w') =
     (auditlog (db Demo.shop2) ++
        [mkAuditLog "delete_product" "product" (str Demo.P1) []])%list /\
   purchase (db w') = purchase (db Demo.shop2)).
Proof.
  split; [| split].
  - apply (proj1 (delete_product_removes_one (str Demo.P3) Demo.shop2)). reflexivity.
  - apply (proj1 (delete_product_removes_one Demo.spaced Demo.shop2)). reflexivity.
  - apply (proj2 (delete_product_removes_one (str Demo.P1) Demo.shop2) Demo.P1
             (mkProduct Demo.P1 (Demo.book 10) "active" (mkStats 0 0)));
      [reflexivity | reflexivity |].
    refine (bool_decide_unpack _ _). vm_compute. exact I.
Defined.

Lemma sold_unknown (ids : list ObjectId) (ps : list Product) :
  Forall (fun o => doc_of ps o = None) ids -> sold ids ps = ps.
Proof.
  induction 1 as [| o ids Ho _ IH]; [done|].
  unfold sold in *. simpl. by rewrite update_first_none.
Qed.

(** X8. Settlement does not need the products to exist: an authentic
    completed event for a purchase whose line items refer to products that
    are no longer in the catalog is acknowledged and sets the purchase to
    [paid], and the product collection is left exactly as it was. *)
Theorem settlement_of_deleted_products
    (stripe : Stripe) (secret payload : string) (sig_header : option string)
    (event : Event) (p : Purchase) (ids : list ObjectId) (w : World) :
  secret <> "" ->
  construct_event stripe payload sig_header secret = inr event ->
  event_type event = "checkout.session.completed" ->
  List.find (db_purchase.has_transaction_id (event_object_id event)) (purchase (db w)) =
    Some p ->
  item_ids (items p) = Some ids ->
  Forall (fun o => doc_of (product (db w)) o = None) ids ->
  let w' := snd (stripe_webhook stripe secret payload sig_header w) in
  fst (stripe_webhook stripe secret payload sig_header w) = Return Received /\
  product (db w') = product (db w) /\
  purchase (db w') =
    update_first (db_purchase.has_id (pur_id p)) (set_payment_status paid) (purchase (db w)).
Proof.
  intros Hs He Ht Hp Hids Hgone w'. subst w'.
  destruct (deliver_settles stripe secret payload sig_header event Hs He Ht p ids w Hp Hids)
    as [Hr Hprod].
  split; [exact Hr|]. split.
  - rewrite Hprod. by apply sold_unknown.
  - by apply (deliver_purchases stripe secret payload sig_header event Hs He Ht).
Qed.

Lemma settlement_of_deleted_products_witness :
  let w := snd (delete_product (str Demo.P1) (Demo.shop_with pending)) in
  let w' := snd (Demo.deliver w) in
  fst (Demo.deliver w) = Return Received /\
  product (db w') = product (db w) /\
  purchase (db w') =
    update_first (db_purchase.has_id (pur_id (Demo.order pending)))
                 (set_payment_status paid) (purchase (db w)).
Proof.
  apply (settlement_of_deleted_products Demo.stripe Demo.secret "cs_test_1"
           (Some Demo.secret) (mkEvent Demo.completed (Some "cs_test_1"))
           (Demo.order pending) [Demo.P1]);
    [discriminate | reflexivity | reflexivity | reflexivity | reflexivity |].
  repeat constructor.
Defined.

(** ** What the handlers keep of the catalog *)

Lemma grows_refl (p : Product) : grows p p.
Proof. unfold grows. repeat split; lia. Qed.

Lemma grows_trans (p1 p2 p3 : Product) : grows p1 p2 -> grows p2 p3 -> grows p1 p3.
Proof.
  unfold grows. intros (I1 & S1 & V1 & L1) (I2 & S2 & V2 & L2).
  repeat split; try congruence; lia.
Qed.

Lemma products_grow_refl (d : DB) : products_grow d d.
Proof. intros o p H. exists p. split; [done | apply grows_refl]. Qed.

Lemma products_grow_trans (d1 d2 d3 : DB) :
  products_grow d1 d2 -> products_grow d2 d3 -> products_grow d1 d3.
Proof.
  intros H12 H23 o p Hp.
  destruct (H12 o p Hp) as (p2 & Hp2 & G12).
  destruct (H23 o p2 Hp2) as (p3 & Hp3 & G23).
  exists p3. split; [done | by eapply grows_trans].
Qed.

Lemma products_grow_same (d d' : DB) : product d' = product d -> products_grow d d'.
Proof. intros E o p H. exists p. rewrite E. split; [done | apply grows_refl]. Qed.

Lemma products_grow_update (d : DB) (i : ObjectId) (f : Product -> Product) :
  (forall p, grows p (f p)) ->
  products_grow d (set_product d (update_first (has_id i) f (product d))).
Proof.
  intros Hf o p Hp. cbn [product set_product].
  rewrite doc_of_update_first by (intros q; apply (Hf q)).
  rewrite Hp. destruct (decide (i = o)); simpl.
  - exists (f p). done.
  - exists p. split; [done | apply grows_refl].
Qed.

Lemma products_grow_insert (d : DB) (x : Product) :
  products_grow d (set_product d (product d ++ [x])).
Proof.
  intros o p Hp. cbn [product set_product]. unfold doc_of in *.
  rewrite find_snoc, Hp. exists p. split; [done | apply grows_refl].
Qed.

Lemma products_grow_update_key (d : DB) (k : Parsed) (f : Product -> Product) :
  (forall p, grows p (f p)) ->
  products_grow d (set_product d (update_first (has_key k) f (product d))).
Proof.
  intros Hf. destruct k as [o | h]; [by apply products_grow_update|].
  apply products_grow_same. apply update_first_never.
Qed.

Ltac grow_step :=
  first [ apply products_grow_same; reflexivity
        | apply products_grow_update_key; intros ?; unfold grows; simpl; repeat split; lia
        | apply products_grow_update; intros ?; unfold grows; simpl; repeat split; lia
        | apply products_grow_insert ].

Lemma handle_products_grow (stripe : Stripe) (secret : string) (r : Request) :
  is_delete r = false -> preserves products_grow (handle stripe secret r).
Proof.
  destruct r; [| | | done | |]; intros _; simpl.
  - unfold get_product, oid, db_product.find_one, db_product.update_one_inc_views.
    frame products_grow_refl products_grow_trans; simpl; grow_step.
  - unfold create_product, create_document_product, create_document_auditlog.
    frame products_grow_refl products_grow_trans; simpl; grow_step.
  - unfold update_product, oid, db_product.update_one_set, create_document_auditlog.
    frame products_grow_refl products_grow_trans; simpl; grow_step.
  - unfold create_checkout, checkout_line, mul_int, int, oid,
      db_product.find_in, db_product.update_one_inc_sales,
      db_purchase.update_one_set, create_document_purchase.
    frame products_grow_refl products_grow_trans; simpl; grow_step.
  - unfold stripe_webhook, oid, db_product.update_one_inc_sales,
      db_purchase.update_one_set, db_purchase.find_one_by_transaction_id.
    frame products_grow_refl products_grow_trans; simpl; grow_step.
Qed.

(** X9. Over every sequence of requests that deletes no product, a
    product id that resolves keeps resolving, to a product of the same
    status whose [stats.views] and [stats.sales] have not gone down: the
    handlers only ever increment the counters, and [update_product] keeps
    them. *)
Theorem counters_never_go_down
    (stripe : Stripe) (secret : string) (rs : list Request) (w : World)
    (o : ObjectId) (p : Product) :
  Forall (fun r => is_delete r = false) rs ->
  doc_of (product (db w)) o = Some p ->
  exists p',
    doc_of (product (db (serve stripe secret rs w))) o = Some p' /\
    prod_status p' = prod_status p /\
    views (prod_stats p) <= views (prod_stats p') /\
    sales (prod_stats p) <= sales (prod_stats p').
Proof.
  intros Hrs. revert w p. induction Hrs as [| r rs Hr _ IH]; intros w p Hp.
  - exists p. simpl. split; [done|]. split; [done|]. split; lia.
  - simpl. destruct (handle_products_grow stripe secret r Hr w o p Hp)
      as (p1 & Hp1 & _ & S1 & V1 & L1).
    destruct (IH _ p1 Hp1) as (p' & Hp' & S' & V' & L').
    exists p'. split; [done|]. split; [congruence|]. split; lia.
Qed.

Lemma counters_never_go_down_witness :
  exists p',
    doc_of (product (db (serve Demo.stripe Demo.secret
              [GetProduct (str Demo.P1);
               UpdateProduct (str Demo.P1) (Demo.book 12);
               StripeWebhook "cs_test_1" (Some Demo.secret)]
              (Demo.shop_with pending)))) Demo.P1 = Some p' /\
    prod_status p' = "active" /\
    0 <= views (prod_stats p') /\
    0 <= sales (prod_stats p').
Proof.
  apply (counters_never_go_down Demo.stripe Demo.secret
           [GetProduct (str Demo.P1);
            UpdateProduct (str Demo.P1) (Demo.book 12);
            StripeWebhook "cs_test_1" (Some Demo.secret)]
           (Demo.shop_with pending) Demo.P1
           (mkProduct Demo.P1 (Demo.book 10) "active" (mkStats 0 0)));
    [repeat constructor | reflexivity].
Defined.

Lemma same_but_sales_refl (p : Product) : same_but_sales p p.
Proof. unfold same_but_sales. repeat split; lia. Qed.

Lemma same_but_sales_trans (p1 p2 p3 : Product) :
  same_but_sales p1 p2 -> same_but_sales p2 p3 -> same_but_sales p1 p3.
Proof.
  unfold same_but_sales. intros (I1 & D1 & S1 & V1 & L1) (I2 & D2 & S2 & V2 & L2).
  repeat split; try congruence; lia.
Qed.

Lemma Forall2_same_but_sales_refl (l : list Product) : Forall2 same_but_sales l l.
Proof. induction l; constructor; [apply same_but_sales_refl | done]. Qed.

Lemma only_sales_change_refl (d : DB) : only_sales_change d d.
Proof. split; [apply Forall2_same_but_sales_refl | done]. Qed.

Lemma only_sales_change_trans (d1 d2 d3 : DB) :
  only_sales_change d1 d2 -> only_sales_change d2 d3 -> only_sales_change d1 d3.
Proof.
  intros [H12 A12] [H23 A23]. split; [| congruence].
  revert H23. generalize (product d3). 
  induction H12 as [| x y l l' Hxy _ IH]; intros l3 H23.
  - inversion H23. constructor.
  - inversion H23 as [| ? z ? l3' Hyz Hrest]; subst.
    constructor; [by eapply same_but_sales_trans | by apply IH].
Qed.

Lemma only_sales_change_same (d d' : DB) :
  product d' = product d -> auditlog d' = auditlog d -> only_sales_change d d'.
Proof.
  intros E A. split; [| done]. rewrite E. apply Forall2_same_but_sales_refl.
Qed.

Lemma only_sales_change_inc (d : DB) (P : Product -> bool) :
  only_sales_change d (set_product d (update_first P inc_sales (product d))).
Proof.
  split; [| done]. cbn [product set_product].
  apply Forall2_update_first; [apply same_but_sales_refl|].
  intros p. unfold same_but_sales. simpl. repeat split; lia.
Qed.

Ltac settle_step :=
  first [ apply only_sales_change_same; reflexivity
        | apply only_sales_change_inc ].

Lemma create_checkout_only_sales (stripe : Stripe) (req : CheckoutRequest)
    (new_id : ObjectId) :
  preserves only_sales_change (create_checkout stripe req new_id).
Proof.
  unfold create_checkout, checkout_line, mul_int, int, oid,
    db_product.find_in, db_product.update_one_inc_sales,
    db_purchase.update_one_set, create_document_purchase.
  frame only_sales_change_refl only_sales_change_trans; simpl; settle_step.
Qed.

Lemma stripe_webhook_only_sales (stripe : Stripe) (secret payload : string)
    (sig_header : option string) :
  preserves only_sales_change (stripe_webhook stripe secret payload sig_header).
Proof.
  unfold stripe_webhook, oid, db_product.update_one_inc_sales,
    db_purchase.update_one_set, db_purchase.find_one_by_transaction_id.
  frame only_sales_change_refl only_sales_change_trans; simpl; settle_step.
Qed.

(** X10. Checkout and settlement touch nothing of the catalog but
    [stats.sales]: after [create_checkout], and after [stripe_webhook],
    whether they return or raise, the product collection holds the same
    products in the same order, each with the same fields (so the same
    price), status and views and with sales that have not gone down; and
    neither writes an audit record. *)
Theorem checkout_and_settlement_only_count_sales (stripe : Stripe) (w : World) :
  (forall req new_id,
     only_sales_change (db w) (db (snd (create_checkout stripe req new_id w)))) /\
  (forall secret payload sig_header,
     only_sales_change (db w) (db (snd (stripe_webhook stripe secret payload sig_header w)))).
Proof.
  split.
  - intros req new_id. apply create_checkout_only_sales.
  - intros secret payload sig_header. apply stripe_webhook_only_sales.
Qed.

(** ** The outcomes of a checkout *)

Lemma raises_only_ret {A} (P : Exn -> Prop) (a : A) : raises_only P (mret a).
Proof. intros w e w' H. discriminate H. Qed.

Lemma raises_only_from_option {A} (P : Exn -> Prop) (e : Exn) (x : option A) :
  P e -> raises_only P (from_option e x).
Proof.
  intros He w e' w' H. rewrite from_option_run in H.
  destruct x; [discriminate H|]. by injection H as <- _.
Qed.

Lemma raises_only_bind {A B} (P : Exn -> Prop) (m : M A) (k : A -> M B) :
  raises_only P m -> (forall a, raises_only P (k a)) -> raises_only P (m ≫= k).
Proof.
  intros Hm Hk w e w' H. rewrite bind_run in H.
  destruct (m w) as [[a | e0] w0] eqn:E.
  - by eapply Hk.
  - injection H as <- _. by eapply Hm.
Qed.

Lemma raises_only_for_fold {A S} (P : Exn -> Prop) (l : list A)
    (body : S -> A -> M S) (s : S) :
  (forall s x, raises_only P (body s x)) -> raises_only P (for_fold l body s).
Proof.
  intros Hb. revert s. induction l as [| x l IH]; intros s; [apply raises_only_ret|].
  apply raises_only_bind; [apply Hb | apply IH].
Qed.

(** The loop of [create_checkout] fails only in a conversion. *)
Lemma checkout_lines_raise (m : gmap string Z) (docs : list Product)
    (s : float * list LineItem) :
  raises_only is_conversion_error (for_fold docs (checkout_line m) s).
Proof.
  apply raises_only_for_fold. intros [total lines] d.
  unfold checkout_line, mul_int, int.
  repeat first [ apply raises_only_bind; [| intros ?]
               | apply raises_only_ret
               | apply raises_only_from_option;
                 unfold is_conversion_error; try destruct (is_nan _); tauto ].
Qed.

(** How [create_checkout] can go: rejected before anything is written,
    or past the insertion. *)
Lemma create_checkout_cases (stripe : Stripe) (req : CheckoutRequest)
    (new_id : ObjectId) (w : World) :
  (exists e, fst (create_checkout stripe req new_id w) = Raise e /\
             (is_conversion_error e \/ exists detail, e = HTTPException 400 detail) /\
             db (snd (create_checkout stripe req new_id w)) = db w) \/
  (exists (ids : list Parsed) d0 rest total lines,
      parse_ids (req_items req) = Some ids /\
      resolved (product (db w)) (req_items req) = d0 :: rest /\
      forall w0, for_fold (resolved (product (db w)) (req_items req))
                   (checkout_line (id_to_qty (req_items req))) (0%float, []) w0 =
                 (Return (total, lines), w0)).
Proof.
  destruct (parse_ids (req_items req)) as [ids|] eqn:Hids.
  2: { left. exists (HTTPException 400 "Invalid id"). unfold create_checkout.
       rewrite bind_run, for_list_oid, Hids. eauto. }
  destruct (resolved (product (db w)) (req_items req)) as [| d0 rest] eqn:Hdocs.
  { left. exists (HTTPException 400 "No valid items"). unfold create_checkout.
    rewrite bind_run, for_list_oid, Hids.
    rewrite bind_run, find_in_run, (resolved_find_in _ _ _ Hids), Hdocs. eauto. }
  destruct (checkout_lines_pure (id_to_qty (req_items req)) (d0 :: rest) (0%float, []))
    as [[[total lines] | e] Hr].
  - right. exists ids, d0, rest, total, lines. done.
  - left. exists e. unfold create_checkout.
    rewrite bind_run, for_list_oid, Hids.
    rewrite bind_run, find_in_run, (resolved_find_in _ _ _ Hids), Hdocs.
    rewrite bind_run, Hr. split; [done|]. split; [|done]. left.
    eapply (checkout_lines_raise _ (d0 :: rest) (0%float, []) w). apply Hr.
Qed.

Lemma update_first_snoc_fresh {A} (P : A -> bool) (f : A -> A) (l : list A) (x : A) :
  List.find P l = None -> P x = true ->
  update_first P f (l ++ [x]) = (l ++ [f x])%list.
Proof.
  intros Hl Hx. induction l as [| y l IH]; simpl in *; [by rewrite Hx|].
  destruct (P y); [done|]. by rewrite IH.
Qed.

(** X11. What a failed checkout leaves behind. When [create_checkout]
    raises a 400 or a conversion error, no collection has changed. When it
    raises because the provider refused the session, the purchase has
    already been inserted: it stays in the collection, [pending] and
    without a transaction reference, and no product has changed. *)
Theorem failed_checkout_leaves
    (stripe : Stripe) (req : CheckoutRequest) (new_id : ObjectId) (w : World) (e : Exn) :
  fst (create_checkout stripe req new_id w) = Raise e ->
  let w' := snd (create_checkout stripe req new_id w) in
  match e with
  | StripeError _ =>
      exists p, purchase (db w') = (purchase (db w) ++ [p])%list /\
                pur_id p = new_id /\ payment_status p = pending /\
                transaction_id p = None /\
                product (db w') = product (db w)
  | _ => db w' = db w
  end.
Proof.
  intros H w'. subst w'.
  destruct (create_checkout_cases stripe req new_id w)
    as [(e0 & He0 & Hkind & Hdb) | (ids & d0 & rest & total & lines & Hids & Hdocs & Hloop)].
  - rewrite He0 in H. injection H as <-.
    destruct Hkind as [[-> | ->] | [detail ->]]; exact Hdb.
  - rewrite (create_checkout_run stripe req new_id w ids d0 rest total lines
               Hids Hdocs Hloop) in H |- *.
    destruct (bool_decide (req_provider req = "stripe") && negb (Py.falsy (api_key stripe))).
    + destruct (Session_create stripe _) as [msg | session].
      * injection H as <-. cbn [fst snd db purchase product set_purchase].
        eexists. split; [reflexivity|]. done.
      * rewrite bind_run, oid_str, bind_run, update_one_set_run in H.
        discriminate H.
    + rewrite bind_run, oid_str, bind_run, update_one_set_run in H.
      rewrite bind_run in H.
      match type of H with
      | context [for_each ?l ?b ?w1] =>
          destruct (settle_docs_run l w1) as (w2 & Hrun & _)
      end.
      rewrite Hrun in H. discriminate H.
Qed.

Lemma failed_checkout_leaves_witness :
  let stripe := mkStripe "sk_test" (fun _ => inl "api_connection_error")
                         (construct_event Demo.stripe) in
  let w' := snd (create_checkout stripe (Demo.cart [(str Demo.P1, 2)] "stripe")
                   Demo.N1 Demo.shop) in
  exists p, purchase (db w') = (purchase (db Demo.shop) ++ [p])%list /\
            pur_id p = Demo.N1 /\ payment_status p = pending /\
            transaction_id p = None /\
            product (db w') = product (db Demo.shop).
Proof.
  apply (failed_checkout_leaves
           (mkStripe "sk_test" (fun _ => inl "api_connection_error")
                     (construct_event Demo.stripe))
           (Demo.cart [(str Demo.P1, 2)] "stripe") Demo.N1 Demo.shop
           (StripeError "api_connection_error")).
  reflexivity.
Defined.

(** The state a successful checkout leaves, when the new identity is
    not yet in the purchase collection. *)
Lemma create_checkout_success (stripe : Stripe) (req : CheckoutRequest)
    (new_id : ObjectId) (w w' : World) (r : Response) :
  create_checkout stripe req new_id w = (Return r, w') ->
  List.find (db_purchase.has_id new_id) (purchase (db w)) = None ->
  exists d0 total,
    (exists sid url,
        r = StripeCheckout sid url /\
        req_provider req = "stripe" /\ api_key stripe <> "" /\
        purchase (db w') =
          (purchase (db w) ++
             [set_transaction_id sid
                (inserted req new_id (resolved (product (db w)) (req_items req)) d0 total)])%list /\
        product (db w') = product (db w)) \/
    (r = DemoCheckout (req_provider req) (str new_id) /\
     (req_provider req <> "stripe" \/ api_key stripe = "") /\
     purchase (db w') =
       (purchase (db w) ++
          [set_transaction_id "demo_txn"
             (set_payment_status paid
                (inserted req new_id (resolved (product (db w)) (req_items req)) d0 total))])%list /\
     product (db w') =
       sold (prod_id <$> resolved (product (db w)) (req_items req)) (product (db w))).
Proof.
  intros H Hfresh.
  destruct (create_checkout_cases stripe req new_id w)
    as [(e0 & He0 & _) | (ids & d0 & rest & total & lines & Hids & Hdocs & Hloop)].
  { rewrite H in He0. discriminate He0. }
  exists d0, total.
  rewrite (create_checkout_run stripe req new_id w ids d0 rest total lines
             Hids Hdocs Hloop) in H.
  assert (forall f, update_first (db_purchase.has_id new_id) f
                      (purchase (db w) ++
                         [inserted req new_id (resolved (product (db w)) (req_items req))
                                   d0 total]) =
                    (purchase (db w) ++
                       [f (inserted req new_id (resolved (product (db w)) (req_items req))
                                    d0 total)])%list) as Hupd.
  { intros f. apply update_first_snoc_fresh; [exact Hfresh|].
    by apply bool_decide_eq_true. }
  destruct (bool_decide (req_provider req = "stripe") && negb (Py.falsy (api_key stripe)))
    eqn:Hcond.
  - apply andb_true_iff in Hcond as [Hprov Hkey].
    apply bool_decide_eq_true in Hprov.
    apply negb_true_iff, bool_decide_eq_false in Hkey.
    destruct (Session_create stripe _) as [msg | session]; [discriminate H|].
    rewrite bind_run, oid_str, bind_run, update_one_set_run in H.
    injection H as <- <-. left. exists (session_id session), (session_url session).
    cbn [db purchase product set_purchase]. by rewrite Hupd.
  - rewrite bind_run, oid_str, bind_run, update_one_set_run in H.
    rewrite bind_run in H.
    match type of H with
    | context [for_each ?l ?b ?w1] =>
        destruct (settle_docs_run l w1) as (w2 & Hrun & Hprod & Hpur)
    end.
    rewrite Hrun in H. injection H as <- <-. right.
    rewrite Hprod, Hpur. cbn [db purchase product set_purchase]. rewrite Hupd.
    split; [done|]. split; [|done].
    apply andb_false_iff in Hcond as [Hprov | Hkey].
    + left. by apply bool_decide_eq_false in Hprov.
    + right. apply negb_false_iff, bool_decide_eq_true in Hkey. exact Hkey.
Qed.

(** X12. What a successful checkout leaves, when the driver's new
    identity is not yet in the purchase collection: exactly one purchase
    is appended, under that identity and with the buyer's email. Through
    the provider (provider ["stripe"] and a key configured) it is
    [pending], carries the session id the response returns, and no product
    has changed: sales are not counted yet. On the fallback path it is
    [paid] with the transaction reference ["demo_txn"], and the response
    carries its identity. *)
Theorem successful_checkout_leaves
    (stripe : Stripe) (req : CheckoutRequest) (new_id : ObjectId) (w w' : World)
    (r : Response) :
  create_checkout stripe req new_id w = (Return r, w') ->
  List.find (db_purchase.has_id new_id) (purchase (db w)) = None ->
  exists p,
    purchase (db w') = (purchase (db w) ++ [p])%list /\
    pur_id p = new_id /\ buyer_email p = req_buyer_email req /\
    ((exists sid url,
         r = StripeCheckout sid url /\
         req_provider req = "stripe" /\ api_key stripe <> "" /\
         payment_status p = pending /\ transaction_id p = Some sid /\
         product (db w') = product (db w)) \/
     (r = DemoCheckout (req_provider req) (str new_id) /\
      (req_provider req <> "stripe" \/ api_key stripe = "") /\
      payment_status p = paid /\ transaction_id p = Some "demo_txn")).
Proof.
  intros H Hfresh.
  destruct (create_checkout_success _ _ _ _ _ _ H Hfresh)
    as (d0 & total & [(sid & url & -> & Hprov & Hkey & Hpur & Hprod)
                     | (-> & Hcond & Hpur & Hprod)]);
    eexists; (split; [exact Hpur|]); (split; [done|]); (split; [done|]).
  - left. exists sid, url. done.
  - right. done.
Qed.

Lemma successful_checkout_leaves_witness :
  let w' := snd (create_checkout Demo.stripe (Demo.cart [(str Demo.P1, 2)] "stripe")
                   Demo.N1 Demo.shop) in
  let r := StripeCheckout "cs_test_1" "https://checkout.stripe.com/c/pay/cs_test_1" in
  exists p,
    purchase (db w') = (purchase (db Demo.shop) ++ [p])%list /\
    pur_id p = Demo.N1 /\ buyer_email p = "buyer@example.com" /\
    ((exists sid url,
         r = StripeCheckout sid url /\
         "stripe" = "stripe" /\ api_key Demo.stripe <> "" /\
         payment_status p = pending /\ transaction_id p = Some sid /\
         product (db w') = product (db Demo.shop)) \/
     (r = DemoCheckout "stripe" (str Demo.N1) /\
      ("stripe" <> "stripe" \/ api_key Demo.stripe = "") /\
      payment_status p = paid /\ transaction_id p = Some "demo_txn")).
Proof.
  apply (successful_checkout_leaves Demo.stripe (Demo.cart [(str Demo.P1, 2)] "stripe")
           Demo.N1 Demo.shop); reflexivity.
Defined.

(** ** Checkout, then the provider's event *)

Lemma item_ids_snapshot (docs : list Product) :
  item_ids (snapshot <$> docs) = Some (prod_id <$> docs).
Proof.
  unfold item_ids. induction docs as [| d docs IH]; [done|].
  cbn [fmap list_fmap mapM]. cbn [snapshot item_product_id].
  rewrite ObjectId_of_str_str. cbn [mbind option_bind]. rewrite IH. done.
Qed.

(** X13. Checkout through the provider followed by the provider's
    event. After a checkout that returned the session [sid], under a new
    identity and with [sid] on no earlier purchase, an authentic completed
    event for [sid] is acknowledged, sets exactly that purchase to [paid],
    and only then counts the sales: one for every product that was
    resolved for the cart. *)
Theorem checkout_then_completed_event_settles
    (stripe : Stripe) (secret : string) (req : CheckoutRequest) (new_id : ObjectId)
    (w w1 : World) (sid url payload : string) (sig_header : option string)
    (event : Event) :
  create_checkout stripe req new_id w = (Return (StripeCheckout sid url), w1) ->
  List.find (db_purchase.has_id new_id) (purchase (db w)) = None ->
  Forall (fun p => transaction_id p <> Some sid) (purchase (db w)) ->
  secret <> "" ->
  construct_event stripe payload sig_header secret = inr event ->
  event_type event = "checkout.session.completed" ->
  event_object_id event = Some sid ->
  let w2 := snd (stripe_webhook stripe secret payload sig_header w1) in
  fst (stripe_webhook stripe secret payload sig_header w1) = Return Received /\
  product (db w1) = product (db w) /\
  (exists p, purchase (db w2) = (purchase (db w) ++ [p])%list /\
             pur_id p = new_id /\ payment_status p = paid /\
             transaction_id p = Some sid) /\
  (forall o,
     sales_of (product (db w2)) o =
       (fun s => s + occurrences o (prod_id <$> resolved (product (db w)) (req_items req)))
         <$> sales_of (product (db w)) o).
Proof.
  intros Hrun Hfresh Hother Hs He Ht Hsid w2. subst w2.
  destruct (create_checkout_success _ _ _ _ _ _ Hrun Hfresh)
    as (d0 & total & [(sid' & url' & [= <- <-] & _ & _ & Hpur & Hprod)
                     | (Hr & _)]); [| discriminate Hr].
  set (p1 := set_transaction_id sid
               (inserted req new_id (resolved (product (db w)) (req_items req)) d0 total))
    in *.
  assert (List.find (db_purchase.has_transaction_id (event_object_id event))
                    (purchase (db w1)) = Some p1) as Hfind.
  { rewrite Hpur, Hsid, find_snoc, find_none_Forall.
    - unfold db_purchase.has_transaction_id. by rewrite bool_decide_eq_true_2.
    - eapply Forall_impl; [exact Hother|]. intros p Hp.
      by apply bool_decide_eq_false. }
  assert (item_ids (items p1) = Some (prod_id <$> resolved (product (db w)) (req_items req)))
    as Hids by apply item_ids_snapshot.
  destruct (deliver_settles stripe secret payload sig_header event Hs He Ht p1 _ w1
              Hfind Hids) as [Hr Hsold].
  pose proof (deliver_purchases stripe secret payload sig_header event Hs He Ht p1 w1 Hfind)
    as Hpaid.
  split; [exact Hr|]. split; [exact Hprod|]. split.
  - exists (set_payment_status paid p1). rewrite Hpaid, Hpur. split; [|done].
    apply update_first_snoc_fresh; [exact Hfresh | by apply bool_decide_eq_true].
  - intros o. rewrite Hsold, Hprod. apply sales_of_sold.
Qed.

Lemma checkout_then_completed_event_settles_witness :
  let w1 := snd (create_checkout Demo.stripe (Demo.cart [(str Demo.P1, 2)] "stripe")
                   Demo.N1 Demo.shop) in
  let w2 := snd (Demo.deliver w1) in
  fst (Demo.deliver w1) = Return Received /\
  product (db w1) = product (db Demo.shop) /\
  (exists p, purchase (db w2) = (purchase (db Demo.shop) ++ [p])%list /\
             pur_id p = Demo.N1 /\ payment_status p = paid /\
             transaction_id p = Some "cs_test_1") /\
  (forall o,
     sales_of (product (db w2)) o =
       (fun s => s + occurrences o
                      (prod_id <$> resolved (product (db Demo.shop))
                                     (req_items (Demo.cart [(str Demo.P1, 2)] "stripe"))))
         <$> sales_of (product (db Demo.shop)) o).
Proof.
  apply (checkout_then_completed_event_settles Demo.stripe Demo.secret
           (Demo.cart [(str Demo.P1, 2)] "stripe") Demo.N1 Demo.shop _
           "cs_test_1" "https://checkout.stripe.com/c/pay/cs_test_1"
           "cs_test_1" (Some Demo.secret) (mkEvent Demo.completed (Some "cs_test_1")));
    [reflexivity | reflexivity | constructor | discriminate
    | reflexivity | reflexivity | reflexivity].
Defined.

(** ** An id that [ObjectId] refuses among a purchase's line items *)

Lemma settle_items_stop (its1 its2 : list PurchaseItem) (it : PurchaseItem)
    (ids1 : list ObjectId) (w : World) :
  item_ids its1 = Some ids1 ->
  ObjectId_parse (item_product_id it) = None ->
  exists w',
    for_each (its1 ++ it :: its2) (fun it =>
      o ← oid (item_product_id it); db_product.update_one_inc_sales o) w =
      (Raise (HTTPException 400 "Invalid id"), w') /\
    product (db w') = sold ids1 (product (db w)) /\
    purchase (db w') = purchase (db w).
Proof.
  unfold item_ids. revert ids1 w.
  induction its1 as [| i its1 IH]; intros ids1 w H Hbad.
  - injection H as <-. exists w. cbn [app for_each].
    by rewrite bind_run, bind_run, oid_run, Hbad.
  - cbn [mapM] in H.
    destruct (ObjectId_of_str (item_product_id i)) as [o|] eqn:Ho; [|done].
    destruct (mapM _ its1) as [ids'|] eqn:Hids; [|done].
    injection H as <-.
    cbn [app for_each].
    rewrite bind_run, bind_run, (oid_Whole _ _ _ Ho), update_one_inc_sales_run.
    destruct (IH ids' (mkWorld
      (set_product (db w) (update_first (has_id o) inc_sales (product (db w))))
      (calls w ++ [UpdateOne "product"])) eq_refl Hbad) as (w' & H1 & H2 & H3).
    exists w'. split; [exact H1|]. split; [rewrite H2 | rewrite H3]; done.
Qed.

(** X14. A purchase with a product id among its line items that
    [ObjectId] refuses (one that has not 24 characters, or that
    [bytes.fromhex] does not read) is settled halfway: on an authentic
    completed event the purchase is set to [paid] and the sales of the
    lines before that one, whose ids are 24 hex digits each, are counted,
    then the webhook answers 400 ["Invalid id"]; the lines after it are
    not counted. *)
Theorem settlement_stops_at_malformed_item
    (stripe : Stripe) (secret payload : string) (sig_header : option string)
    (event : Event) (p : Purchase) (its1 its2 : list PurchaseItem) (it : PurchaseItem)
    (ids1 : list ObjectId) (w : World) :
  secret <> "" ->
  construct_event stripe payload sig_header secret = inr event ->
  event_type event = "checkout.session.completed" ->
  List.find (db_purchase.has_transaction_id (event_object_id event)) (purchase (db w)) =
    Some p ->
  items p = (its1 ++ it :: its2)%list ->
  item_ids its1 = Some ids1 ->
  ObjectId_parse (item_product_id it) = None ->
  let w' := snd (stripe_webhook stripe secret payload sig_header w) in
  fst (stripe_webhook stripe secret payload sig_header w) =
    Raise (HTTPException 400 "Invalid id") /\
  purchase (db w') =
    update_first (db_purchase.has_id (pur_id p)) (set_payment_status paid) (purchase (db w)) /\
  product (db w') = sold ids1 (product (db w)).
Proof.
  intros Hs He Ht Hp Hits Hids Hbad w'. subst w'.
  split; [| split;
    [by apply (deliver_purchases stripe secret payload sig_header event Hs He Ht)|]].
  - unfold stripe_webhook, Py.falsy.
    rewrite bool_decide_eq_false_2 by done. rewrite He.
    rewrite bool_decide_eq_true_2 by done.
    rewrite bind_run, bind_run, find_one_by_transaction_id_run, Hp.
    rewrite bind_run, update_one_set_run, Hits.
    match goal with
    | |- context [for_each _ ?b ?w1] =>
        destruct (settle_items_stop its1 its2 it ids1 w1 Hids Hbad) as (w2 & -> & _)
    end.
    done.
  - unfold stripe_webhook, Py.falsy.
    rewrite bool_decide_eq_false_2 by done. rewrite He.
    rewrite bool_decide_eq_true_2 by done.
    rewrite bind_run, bind_run, find_one_by_transaction_id_run, Hp.
    rewrite bind_run, update_one_set_run, Hits.
    match goal with
    | |- context [for_each _ ?b ?w1] =>
        destruct (settle_items_stop its1 its2 it ids1 w1 Hids Hbad) as (w2 & -> & H2 & _)
    end.
    exact H2.
Qed.

Lemma settlement_stops_at_malformed_item_witness :
  let broken := mkPurchase Demo.N1 "buyer@example.com"
                  [mkPurchaseItem (str Demo.P1) "Book" 10 "seller-1";
                   mkPurchaseItem "lost" "Pen" 1 "seller-1";
                   mkPurchaseItem (str Demo.P2) "Book" 2.5 "seller-1"]
                  13.5 "usd" "stripe" pending (Some "cs_test_1") in
  let w := mkWorld (mkDB Demo.catalog2 [broken] []) [] in
  let w' := snd (Demo.deliver w) in
  fst (Demo.deliver w) = Raise (HTTPException 400 "Invalid id") /\
  purchase (db w') =
    update_first (db_purchase.has_id Demo.N1) (set_payment_status paid) (purchase (db w)) /\
  product (db w') = sold [Demo.P1] Demo.catalog2.
Proof.
  apply (settlement_stops_at_malformed_item Demo.stripe Demo.secret "cs_test_1"
           (Some Demo.secret) (mkEvent Demo.completed (Some "cs_test_1"))
           (mkPurchase Demo.N1 "buyer@example.com"
              [mkPurchaseItem (str Demo.P1) "Book" 10 "seller-1";
               mkPurchaseItem "lost" "Pen" 1 "seller-1";
               mkPurchaseItem (str Demo.P2) "Book" 2.5 "seller-1"]
              13.5 "usd" "stripe" pending (Some "cs_test_1"))
           [mkPurchaseItem (str Demo.P1) "Book" 10 "seller-1"]
           [mkPurchaseItem (str Demo.P2) "Book" 2.5 "seller-1"]
           (mkPurchaseItem "lost" "Pen" 1 "seller-1") [Demo.P1]);
    [discriminate | reflexivity | reflexivity | reflexivity | reflexivity
    | reflexivity | reflexivity].
Defined.

(** A line item whose id [ObjectId] reads as a shorter object does not
    stop the settlement: its [$inc] matches nothing, the lines after it
    are counted and the event is acknowledged. *)
Example settlement_skips_short_id :
  let p := mkPurchase Demo.N1 "buyer@example.com"
             [mkPurchaseItem (str Demo.P1) "Book" 10 "seller-1";
              mkPurchaseItem Demo.spaced "Pen" 1 "seller-1";
              mkPurchaseItem (str Demo.P2) "Book" 2.5 "seller-1"]
             13.5 "usd" "stripe" pending (Some "cs_test_1") in
  let w := mkWorld (mkDB Demo.catalog2 [p] []) [] in
  fst (Demo.deliver w) = Return Received /\
  product (db (snd (Demo.deliver w))) = sold [Demo.P1; Demo.P2] Demo.catalog2.
Proof. vm_compute. repeat split. Qed.

(** ** The audit log *)

Lemma audit_same_refl (d : DB) : audit_same d d.
Proof. done. Qed.

Lemma audit_same_trans (d1 d2 d3 : DB) : audit_same d1 d2 -> audit_same d2 d3 -> audit_same d1 d3.
Proof. unfold audit_same. congruence. Qed.

Lemma get_product_audit (product_id : string) : preserves audit_same (get_product product_id).
Proof.
  unfold get_product, oid, db_product.find_one, db_product.update_one_inc_views.
  frame audit_same_refl audit_same_trans; done.
Qed.

(** X15. What the catalog, checkout and webhook handlers write to the
    audit log. [create_product], and [update_product] and
    [delete_product] when they return, append exactly one record naming
    the action and the product id; when one of them raises (400, 404),
    and on every [get_product], checkout and webhook delivery, the audit
    log is left as it was. ([update_settings], which is not among these
    handlers, appends a record of its own.) *)
Theorem audit_log_records_successful_writes
    (stripe : Stripe) (secret : string) (r : Request) (w : World) :
  auditlog (db (snd (handle stripe secret r w))) =
    (auditlog (db w) ++
       match fst (handle stripe secret r w), audit_record r with
       | Return _, Some a => [a]
       | _, _ => []
       end)%list.
Proof.
  destruct r as [i | data n | i data | i | q n | b h]; cbn [handle audit_record].
  - rewrite (get_product_audit i w). by destruct (fst _); rewrite app_nil_r.
  - by rewrite create_product_run.
  - unfold update_product. rewrite bind_run, oid_run.
    destruct (ObjectId_parse i) as [k|]; [| cbn; by rewrite app_nil_r].
    rewrite bind_run. unfold db_product.update_one_set, call.
    destruct (matched (has_key k) (product (db w)) =? 0); [cbn; by rewrite app_nil_r|].
    by rewrite bind_run, create_document_auditlog_run.
  - unfold delete_product. rewrite bind_run, oid_run.
    destruct (ObjectId_parse i) as [k|]; [| cbn; by rewrite app_nil_r].
    rewrite bind_run. unfold db_product.delete_one, call.
    destruct (matched (has_key k) (product (db w)) =? 0); [cbn; by rewrite app_nil_r|].
    by rewrite bind_run, create_document_auditlog_run.
  - destruct (create_checkout_only_sales stripe q n w) as [_ ->].
    by destruct (fst _); rewrite app_nil_r.
  - destruct (stripe_webhook_only_sales stripe secret b h w) as [_ ->].
    by destruct (fst _); rewrite app_nil_r.
Qed.

(** ** Sellers *)

Lemma update_first_compose {A} (P : A -> bool) (f g : A -> A) (l : list A) :
  (forall x, P (g x) = P x) ->
  update_first P f (update_first P g l) = update_first P (fun x => f (g x)) l.
Proof.
  intros HP. induction l as [| x l IH]; [done|]. simpl.
  destruct (P x) eqn:E; simpl.
  - by rewrite HP, E.
  - by rewrite E, IH.
Qed.

Lemma update_first_ext {A} (P : A -> bool) (f g : A -> A) (l : list A) :
  (forall x, f x = g x) -> update_first P f l = update_first P g l.
Proof.
  intros H. induction l as [| x l IH]; [done|]. simpl.
  destruct (P x); [by rewrite H | by rewrite IH].
Qed.

Lemma has_user_id_keeps (f : Seller -> Seller) (u : string) :
  (forall s, user_id (f s) = user_id s) ->
  forall s, has_user_id u (f s) = has_user_id u s.
Proof. intros Hf s. unfold has_user_id. by rewrite Hf. Qed.

Lemma seller_of_upsert_eq (u : string) (f : Seller -> Seller) (sellers : list Seller) :
  (forall s, user_id (f s) = user_id s) ->
  seller_of (upsert_seller u f sellers) u =
    Some (f (default (mkSeller u None None None None) (seller_of sellers u))).
Proof.
  intros Hf. unfold upsert_seller.
  destruct (seller_of sellers u) as [s|] eqn:E; unfold seller_of in *.
  - rewrite find_update_first_same by (by apply has_user_id_keeps). by rewrite E.
  - rewrite find_snoc, E. unfold has_user_id. rewrite Hf. cbn [user_id].
    by rewrite bool_decide_eq_true_2.
Qed.

Lemma seller_of_update_first_ne (u u' : string) (f : Seller -> Seller)
    (sellers : list Seller) :
  (forall s, user_id (f s) = user_id s) -> u' <> u ->
  seller_of (update_first (has_user_id u) f sellers) u' = seller_of sellers u'.
Proof.
  intros Hf Hne. unfold seller_of. induction sellers as [| s l IH]; [done|]. simpl.
  destruct (has_user_id u s) eqn:E; simpl.
  - rewrite (has_user_id_keeps f u' Hf).
    apply bool_decide_eq_true in E.
    assert (has_user_id u' s = false) as -> by (apply bool_decide_eq_false; congruence).
    done.
  - by rewrite IH.
Qed.

Lemma seller_of_upsert_ne (u u' : string) (f : Seller -> Seller) (sellers : list Seller) :
  (forall s, user_id (f s) = user_id s) -> u' <> u ->
  seller_of (upsert_seller u f sellers) u' = seller_of sellers u'.
Proof.
  intros Hf Hne. unfold upsert_seller.
  destruct (seller_of sellers u) as [s|] eqn:E.
  - by apply seller_of_update_first_ne.
  - unfold seller_of. rewrite find_snoc.
    destruct (List.find (has_user_id u') sellers); [done|].
    unfold has_user_id. rewrite Hf. cbn [user_id].
    by rewrite bool_decide_eq_false_2.
Qed.

Lemma upsert_seller_twice (u : string) (f g : Seller -> Seller) (sellers : list Seller) :
  (forall s, user_id (g s) = user_id s) ->
  upsert_seller u f (upsert_seller u g sellers) =
    upsert_seller u (fun s => f (g s)) sellers.
Proof.
  intros Hg.
  pose proof (seller_of_upsert_eq u g sellers Hg) as Hafter.
  unfold upsert_seller at 1. rewrite Hafter.
  unfold upsert_seller. destruct (seller_of sellers u) as [s|] eqn:E.
  - apply update_first_compose. by apply has_user_id_keeps.
  - apply update_first_snoc_fresh; [exact E|].
    unfold has_user_id. rewrite Hg. by apply bool_decide_eq_true.
Qed.

Lemma upsert_seller_ext (u : string) (f g : Seller -> Seller) (sellers : list Seller) :
  (forall s, f s = g s) -> upsert_seller u f sellers = upsert_seller u g sellers.
Proof.
  intros H. unfold upsert_seller. destruct (seller_of sellers u).
  - by apply update_first_ext.
  - by rewrite H.
Qed.

Lemma length_update_first {A} (P : A -> bool) (f : A -> A) (l : list A) :
  length (update_first P f l) = length l.
Proof.
  induction l as [| x l IH]; [done|]. simpl. destruct (P x); simpl; congruence.
Qed.

(** X16. [set_seller_status] answers 400 ["Invalid status"] to any
    status but [pending], [approved] and [suspended], and changes nothing.
    For one of the three it always succeeds, also for a user id that no
    seller has: then it creates a seller holding only that user id and
    the status. Afterwards the seller of that user id has the status and
    otherwise the fields it had; every other seller is as before; and a
    second, equal request changes nothing more. *)
Theorem set_seller_status_upserts (seller_user_id status : string) (sellers : list Seller) :
  (status ∉ ["pending"; "approved"; "suspended"] ->
   set_seller_status seller_user_id status sellers =
     (Raise (HTTPException 400 "Invalid status"), sellers)) /\
  (status ∈ ["pending"; "approved"; "suspended"] ->
   let sellers' := snd (set_seller_status seller_user_id status sellers) in
   fst (set_seller_status seller_user_id status sellers) = Return Updated /\
   seller_of sellers' seller_user_id =
     Some (set_status status
             (default (mkSeller seller_user_id None None None None)
                      (seller_of sellers seller_user_id))) /\
   (forall u, u <> seller_user_id -> seller_of sellers' u = seller_of sellers u) /\
   length sellers' =
     (length sellers + (if seller_of sellers seller_user_id is Some _ then 0 else 1))%nat /\
   snd (set_seller_status seller_user_id status sellers') = sellers').
Proof.
  unfold set_seller_status. split; intros Hs.
  - by rewrite bool_decide_eq_false_2.
  - rewrite bool_decide_eq_true_2 by done. cbn [negb fst snd].
    split; [done|]. split; [by apply seller_of_upsert_eq|].
    split; [intros u Hu; by apply seller_of_upsert_ne|]. split.
    + unfold upsert_seller. destruct (seller_of sellers seller_user_id).
      * rewrite length_update_first. lia.
      * rewrite length_app. simpl. lia.
    + rewrite upsert_seller_twice by done.
      by apply upsert_seller_ext.
Qed.

Lemma set_seller_status_upserts_witness :
  set_seller_status "u-1" "banned" [] = (Raise (HTTPException 400 "Invalid status"), []) /\
  (let sellers' := snd (set_seller_status "u-1" "approved" []) in
   fst (set_seller_status "u-1" "approved" []) = Return Updated /\
   seller_of sellers' "u-1" =
     Some (set_status "approved"
             (default (mkSeller "u-1" None None None None) (seller_of [] "u-1"))) /\
   (forall u, u <> "u-1" -> seller_of sellers' u = seller_of [] u) /\
   length sellers' = (length (@nil Seller) + 1)%nat /\
   snd (set_seller_status "u-1" "approved" sellers') = sellers').
Proof.
  split.
  - apply (proj1 (set_seller_status_upserts "u-1" "banned" [])).
    intros H. by repeat (apply elem_of_cons in H as [H | H]; [discriminate H|]);
      apply elem_of_nil in H.
  - apply (proj2 (set_seller_status_upserts "u-1" "approved" [])).
    apply list_elem_of_further, list_elem_of_here.
Defined.

(** X17. [seller_stripe_onboard] without an API key answers the
    registration link and writes nothing, and when either provider call
    fails it writes nothing. When both succeed it records the account id
    on the seller of that id, creating the seller if there is none, and
    leaves the status and every other field alone. Status and account id
    are independent: onboarding and [set_seller_status] for the same
    seller leave the same collection in either order. *)
Theorem seller_stripe_onboard_records_account
    (key : string) (Account_create : string + string)
    (AccountLink_create : string -> string + string)
    (seller_id : string) (sellers : list Seller) :
  let onboard := seller_stripe_onboard key Account_create AccountLink_create seller_id in
  (key = "" -> onboard sellers = (Return "https://dashboard.stripe.com/register", sellers)) /\
  (forall e, fst (onboard sellers) = Raise e -> snd (onboard sellers) = sellers) /\
  (forall account url,
     key <> "" -> Account_create = inr account -> AccountLink_create account = inr url ->
     fst (onboard sellers) = Return url /\
     seller_of (snd (onboard sellers)) seller_id =
       Some (set_stripe_connect_id account
               (default (mkSeller seller_id None None None None)
                        (seller_of sellers seller_id))) /\
     (forall u, u <> seller_id ->
        seller_of (snd (onboard sellers)) u = seller_of sellers u)) /\
  (forall status,
     snd (set_seller_status seller_id status (snd (onboard sellers))) =
     snd (onboard (snd (set_seller_status seller_id status sellers)))).
Proof.
  intros onboard. subst onboard. unfold seller_stripe_onboard, Py.falsy.
  split; [| split; [| split]].
  - intros ->. done.
  - intros e. destruct (bool_decide (key = "")); [done|].
    destruct Account_create as [e1 | account]; [done|].
    destruct (AccountLink_create account) as [e2 | url]; done.
  - intros account url Hkey -> Hlink. rewrite bool_decide_eq_false_2 by done.
    rewrite Hlink. cbn [fst snd]. split; [done|].
    split; [by apply seller_of_upsert_eq|].
    intros u Hu. by apply seller_of_upsert_ne.
  - intros status. unfold set_seller_status.
    destruct (negb (bool_decide (status ∈ ["pending"; "approved"; "suspended"])));
      [done|].
    destruct (bool_decide (key = "")); [done|].
    destruct Account_create as [e1 | account]; [done|].
    destruct (AccountLink_create account) as [e2 | url]; [done|].
    cbn [fst snd]. rewrite !upsert_seller_twice by done.
    by apply upsert_seller_ext.
Qed.

Lemma seller_stripe_onboard_records_account_witness :
  let onboard :=
    seller_stripe_onboard "sk_test" (inr "acct_1")
      (fun a => inr ("https://connect.stripe.com/setup/" +:+ a)) "u-1" in
  fst (onboard []) = Return "https://connect.stripe.com/setup/acct_1" /\
  seller_of (snd (onboard [])) "u-1" =
    Some (set_stripe_connect_id "acct_1"
            (default (mkSeller "u-1" None None None None) (seller_of [] "u-1"))) /\
  (forall u, u <> "u-1" -> seller_of (snd (onboard [])) u = seller_of [] u).
Proof.
  apply (proj1 (proj2 (proj2 (seller_stripe_onboard_records_account "sk_test" (inr "acct_1")
           (fun a => inr ("https://connect.stripe.com/setup/" +:+ a)) "u-1" []))));
    [discriminate | reflexivity | reflexivity].
Defined.
